(** * Download, checksum and extraction pipelines of st-visium-datasets

    A shallow embedding of
    - [src/st_atlas_datasets/utils/data_file.py]        (DataFile)
    - [src/st_atlas_datasets/utils/download_manager.py] (DownloadManager)
    - [src/st_atlas_datasets/utils/extract_manager.py]  (extractors)
    - [st_visium_datasets/utils/download.py]            (retrying download)

    Python exceptions are modelled by an exception-state monad: effects
    performed before a [raise] persist in the returned state.  The file
    system is an association list keyed by normalised paths; reads,
    writes, openings, network transfers and extractions are recorded in an
    event trace. *)

From Stdlib Require Import String Ascii List Bool Arith ZArith Lia.
Import ListNotations.
Open Scope list_scope.
Open Scope string_scope.
Set Warnings "-register-all".


(* ================================================================= *)
(** ** Python string helpers *)

Definition slash : ascii := "/"%char.
Definition dot : ascii := "."%char.
Definition dq : string := String (ascii_of_nat 34) EmptyString.

(** [s.split(c)] for a one-character separator. *)
Fixpoint split_on (c : ascii) (s : string) : list string :=
  match s with
  | EmptyString => [EmptyString]
  | String a s' =>
      let rest := split_on c s' in
      if Ascii.eqb a c then EmptyString :: rest
      else match rest with
           | r :: rs => String a r :: rs
           | [] => [String a EmptyString]
           end
  end.

(** [c.join(l)] *)
Fixpoint join_with (c : string) (l : list string) : string :=
  match l with
  | [] => EmptyString
  | [x] => x
  | x :: xs => x ++ c ++ join_with c xs
  end.

Fixpoint char_in (a : ascii) (chars : string) : bool :=
  match chars with
  | EmptyString => false
  | String b r => Ascii.eqb a b || char_in a r
  end.

(** [s.rstrip(chars)]: strips trailing characters that occur in [chars]
    (a character set, not a suffix). *)
Fixpoint rstrip (chars s : string) : string :=
  match s with
  | EmptyString => EmptyString
  | String a s' =>
      match rstrip chars s' with
      | EmptyString => if char_in a chars then EmptyString else String a EmptyString
      | r => String a r
      end
  end.

(** [s.lstrip(chars)] *)
Fixpoint lstrip (chars s : string) : string :=
  match s with
  | EmptyString => EmptyString
  | String a s' => if char_in a chars then lstrip chars s' else s
  end.

(** whitespace set of [str.strip()] *)
Definition whitespace : string :=
  String (ascii_of_nat 32) (String (ascii_of_nat 9) (String (ascii_of_nat 10)
  (String (ascii_of_nat 11) (String (ascii_of_nat 12) (String (ascii_of_nat 13) EmptyString))))).

(** [s.strip()] *)
Definition strip_ws (s : string) : string := rstrip whitespace (lstrip whitespace s).

(** [s.endswith(suf)] *)
Definition ends_with (suf s : string) : bool :=
  let n := String.length s in
  let m := String.length suf in
  (Nat.leb m n) && String.eqb (substring (n - m) m s) suf.

(** [s.startswith(pre)] *)
Definition starts_with (pre s : string) : bool := String.prefix pre s.

(** [str.lower()] on ASCII. *)
Definition lower_char (a : ascii) : ascii :=
  let n := nat_of_ascii a in
  if Nat.leb 65 n && Nat.leb n 90 then ascii_of_nat (n + 32) else a.

Fixpoint lower (s : string) : string :=
  match s with
  | EmptyString => EmptyString
  | String a s' => String (lower_char a) (lower s')
  end.

(** [remove_suffix] of [st_visium_datasets/utils/utils.py]:
    [s[: -len(suffix)]], which is [s[:0]], the empty string, for an
    empty suffix. *)
Definition remove_suffix (s suffix : string) : string :=
  if ends_with suffix s then
    match suffix with
    | EmptyString => EmptyString
    | String _ _ => substring 0 (String.length s - String.length suffix) s
    end
  else s.

Fixpoint last_elem (l : list string) (d : string) : string :=
  match l with
  | [] => d
  | [x] => x
  | _ :: xs => last_elem xs d
  end.

(* ================================================================= *)
(** ** Paths (POSIX [os.path] and [pathlib]) *)

(** Parts of a pathlib path: empty and ["."] components are dropped. *)
Definition pathlib_parts (p : string) : list string :=
  filter (fun c => negb (String.eqb c "" || String.eqb c ".")) (split_on slash p).

(** Root kept by pathlib: exactly two leading slashes are kept, one or
    three and more collapse to one. *)
Definition pathlib_root (p : string) : string :=
  if starts_with "//" p then (if starts_with "///" p then "/" else "//")
  else if starts_with "/" p then "/" else "".

(** [str(Path(p))] *)
Definition pathlib_str (p : string) : string :=
  let r := pathlib_root p in
  let body := join_with "/" (pathlib_parts p) in
  if String.eqb r "" && String.eqb body "" then "." else r ++ body.

(** [Path(a) / b] rendered with [str]: an absolute [b] replaces [a]. *)
Definition path_div (a b : string) : string :=
  if starts_with "/" b then pathlib_str b
  else pathlib_str ((if String.eqb a "" then "." else a) ++ "/" ++ b).

(** [Path(p).name] *)
Definition path_name (p : string) : string := last_elem (pathlib_parts p) "".

(** [Path(p).suffixes] *)
Definition path_suffixes (p : string) : list string :=
  let n := path_name p in
  if ends_with "." n then []
  else map (fun x => "." ++ x) (tl (split_on dot (lstrip "." n))).

(** ["".join(Path(p).suffixes)] *)
Definition extention (p : string) : string := String.concat "" (path_suffixes p).

(** position of the last ["."] of a string *)
Fixpoint rfind_dot_aux (s : string) (i : nat) (acc : option nat) : option nat :=
  match s with
  | EmptyString => acc
  | String a s' => rfind_dot_aux s' (S i) (if Ascii.eqb a dot then Some i else acc)
  end.

(** [Path(p).suffix] *)
Definition path_suffix (p : string) : string :=
  let n := path_name p in
  match rfind_dot_aux n 0 None with
  | Some i => if Nat.ltb 0 i && Nat.ltb i (String.length n - 1)
              then substring i (String.length n - i) n else ""
  | None => ""
  end.

(** [str(Path(p).with_suffix(suf))] *)
Definition with_suffix (p suf : string) : string :=
  let s := pathlib_str p in
  let old := path_suffix s in
  substring 0 (String.length s - String.length old) s ++ suf.

(** [os.path.join(a, b)] *)
Definition os_path_join (a b : string) : string :=
  if starts_with "/" b then b
  else if String.eqb a "" || ends_with "/" a then a ++ b
  else a ++ "/" ++ b.

(** The leading slashes kept by [os.path.normpath]. *)
Definition initial_slashes (p : string) : nat :=
  if starts_with "//" p then (if starts_with "///" p then 1 else 2)
  else if starts_with "/" p then 1 else 0.

(** One iteration of the component loop of [posixpath.normpath]; the
    components built so far are kept reversed (top of stack first). *)
Definition normpath_step (absolute : bool) (acc : list string) (comp : string)
  : list string :=
  if String.eqb comp "" || String.eqb comp "." then acc
  else if negb (String.eqb comp "..")
          || (negb absolute && match acc with [] => true | _ => false end)
          || match acc with top :: _ => String.eqb top ".." | [] => false end
  then comp :: acc
  else match acc with
       | [] => []
       | _ :: rest => rest
       end.

Definition normpath_comps (p : string) : list string :=
  rev (fold_left (normpath_step (Nat.ltb 0 (initial_slashes p))) (split_on slash p) []).

(** [os.path.normpath(p)] *)
Definition normpath (p : string) : string :=
  let body := join_with "/" (normpath_comps p) in
  let r := match initial_slashes p with 0 => "" | 1 => "/" | _ => "//" end in
  if String.eqb r "" && String.eqb body "" then "." else r ++ body.

(** [os.path.split(p)] *)
Definition os_path_split (p : string) : string * string :=
  let tail := last_elem (split_on slash p) "" in
  let head0 := substring 0 (String.length p - String.length tail) p in
  let head := if String.eqb head0 "" || String.eqb (lstrip "/" head0) "" then head0
              else rstrip "/" head0 in
  (head, tail).

(** A file is identified by its normalised path: leading slashes and
    components of [os.path.normpath]. *)
Definition key : Type := (nat * list string)%type.

Definition norm_key (p : string) : key := (initial_slashes p, normpath_comps p).

Definition key_eqb (k1 k2 : key) : bool :=
  Nat.eqb (fst k1) (fst k2)
  && (fix eql (a b : list string) : bool :=
        match a, b with
        | [], [] => true
        | x :: xs, y :: ys => String.eqb x y && eql xs ys
        | _, _ => false
        end) (snd k1) (snd k2).

(* ================================================================= *)
(** ** File contents, file system, events and exceptions *)

(** Contents of a file, at the level the libraries look at it: an
    opaque blob (text or bytes), a tar archive or a zip archive.  A
    member is (name, is-a-file flag, data).  Tar members are regular
    files (flag [true]) or directories (flag [false]): symbolic links,
    hard links and special files are not modelled.  [zipfile] tells a
    directory by the trailing slash of its name. *)
Inductive content : Type :=
| Blob (s : string)
| TarArchive (members : list (string * bool * content))
| ZipArchive (members : list (string * bool * content)).

(** Outcome of streaming one remote URI ([fsspec] open + chunked read). *)
Inductive net_result : Type :=
| NetOk (c : content)            (** the whole content was received *)
| NetUnreachable                 (** opening the remote file failed *)
| NetBroken (partial : content). (** reading failed after [partial] *)

(** The environment the program runs in: the MD5 hex digest function of
    [hashlib]; the network, where [net k u] is what the [k]-th transfer of
    the run (counted from 0) receives from [u]; and [url_to_fs_ok u],
    whether [fsspec.core.url_to_fs(u)] returns for a URI of a non-local
    protocol (fsspec knows the protocol, its implementation can be
    imported and the file system can be created). *)
Record Env : Type := mkEnv {
  md5hex : content -> string;
  net : nat -> string -> net_result;
  url_to_fs_ok : string -> bool
}.

Inductive event : Type :=
| ENetOpen (u : string)   (** remote file opened for a transfer *)
| EOpen (k : key)         (** local file opened *)
| ERead (k : key)         (** local file read *)
| EWrite (k : key)        (** local file written *)
| EExtract (k : key)      (** archive extraction into a directory started *)
| EMkdir (k : key).       (** directory made *)

Inductive exn : Type :=
| ValueError (msg : string)
| TypeError (msg : string)
| FileNotFoundError (path : string)
| NotImplementedError (msg : string)
| RuntimeError (msg : string)
| OSError (msg : string)
| ReadError (msg : string)
| UnicodeDecodeError
| FileExistsError (path : string)
| NotADirectoryError (path : string)
| IsADirectoryError (path : string)
| FsspecError (uri : string).
  (** what [fsspec.core.url_to_fs] raises for a URI it cannot serve:
      [ValueError] for an unknown protocol, [ImportError] for a missing
      implementation, or the file system's own error *)

Inductive res (A : Type) : Type :=
| Ok (a : A)
| Err (e : exn).
Arguments Ok {A} a.
Arguments Err {A} e.

(** Machine state: files (newest binding first) and the trace of events
    (newest first). *)
Record St : Type := mkSt {
  st_fs : list (key * content);
  st_trace : list event
}.

Definition M (A : Type) : Type := St -> res A * St.

Definition ret {A} (a : A) : M A := fun s => (Ok a, s).
Definition raise {A} (e : exn) : M A := fun s => (Err e, s).
Definition bind {A B} (m : M A) (k : A -> M B) : M B :=
  fun s => match m s with
           | (Ok a, s') => k a s'
           | (Err e, s') => (Err e, s')
           end.

Notation "x <- m ;; k" := (bind m (fun x => k))
  (at level 61, m at next level, right associativity).
Notation "m ;;; k" := (bind m (fun _ => k))
  (at level 61, right associativity).

Fixpoint fs_lookup (fs : list (key * content)) (k : key) : option content :=
  match fs with
  | [] => None
  | (k', c) :: rest => if key_eqb k k' then Some c else fs_lookup rest k
  end.

Definition log (e : event) : M unit :=
  fun s => (Ok tt, mkSt (st_fs s) (e :: st_trace s)).

(** [Path(p).is_file()] *)
Definition is_file (p : string) : M bool :=
  fun s => (Ok (match fs_lookup (st_fs s) (norm_key p) with Some _ => true | None => false end), s).

(** [open(p, "wb").write(c)] *)
Definition write_file (p : string) (c : content) : M unit :=
  fun s => (Ok tt, mkSt ((norm_key p, c) :: st_fs s) (EWrite (norm_key p) :: st_trace s)).

(** Opening a local file for reading ([open], [progress.open]). *)
Definition open_file (p : string) : M content :=
  fun s => match fs_lookup (st_fs s) (norm_key p) with
           | Some c => (Ok c, mkSt (st_fs s) (EOpen (norm_key p) :: st_trace s))
           | None => (Err (FileNotFoundError p), s)
           end.

(** Streaming the whole of a local file (to hash it). *)
Definition read_file (p : string) : M content :=
  fun s => match fs_lookup (st_fs s) (norm_key p) with
           | Some c => (Ok c, mkSt (st_fs s) (ERead (norm_key p) :: EOpen (norm_key p) :: st_trace s))
           | None => (Err (FileNotFoundError p), s)
           end.

(** [Path(p).read_text()] *)
Definition read_text (p : string) : M string :=
  c <- read_file p ;;
  match c with
  | Blob t => ret t
  | _ => raise UnicodeDecodeError
  end.

(* ================================================================= *)
(** ** Directories, path resolution, [os.mkdir], [os.makedirs] and
       [Path.mkdir] *)

(** The file system has no symbolic links.  Directories are not stored
    as entries: a path names a directory when no file is stored at it and
    it is a root, a directory made by [os.mkdir] (an [EMkdir] event of the
    trace: nothing is ever removed), or a file lies below it. *)

(** ["/"] and ["//"], or for a relative key the working directory and
    its ancestors *)
Definition is_root_key (k : key) : bool :=
  match k with
  | (0, cs) => forallb (String.eqb "..") cs
  | (_, cs) => match cs with [] => true | _ :: _ => false end
  end.

Definition file_at (s : St) (k : key) : bool :=
  match fs_lookup (st_fs s) k with Some _ => true | None => false end.

(** [k] lies strictly below directory [d] *)
Definition key_below (d k : key) : bool :=
  Nat.eqb (fst d) (fst k)
  && (fix pre (a b : list string) : bool :=
        match a, b with
        | [], _ :: _ => true
        | x :: xs, y :: ys => String.eqb x y && pre xs ys
        | _, _ => false
        end) (snd d) (snd k).

Definition made_dir (tr : list event) (k : key) : bool :=
  existsb (fun e => match e with EMkdir k' => key_eqb k k' | _ => false end) tr.

Definition dir_at (s : St) (k : key) : bool :=
  negb (file_at s k)
  && (is_root_key k || made_dir (st_trace s) k
      || existsb (fun kc => key_below k (fst kc)) (st_fs s)).

(** Path resolution by the kernel: each component is looked up in the
    directory reached so far, which must exist ([FileNotFoundError]) and
    be a directory ([NotADirectoryError]); ["."] stays there and [".."]
    goes to the parent, as in [normpath_step]. *)
Fixpoint resolve_comps (s : St) (p : string) (sl : nat) (acc : list string)
    (comps : list string) : res key :=
  match comps with
  | [] => Ok (sl, rev acc)
  | c :: rest =>
      if dir_at s (sl, rev acc)
      then resolve_comps s p sl (normpath_step (Nat.ltb 0 sl) acc c) rest
      else if file_at s (sl, rev acc) then Err (NotADirectoryError p)
      else Err (FileNotFoundError p)
  end.

(** The empty path names nothing. *)
Definition resolve (s : St) (p : string) : res key :=
  if String.eqb p "" then Err (FileNotFoundError p)
  else resolve_comps s p (initial_slashes p) [] (split_on slash p).

(** [os.path.exists(p)] *)
Definition path_exists (s : St) (p : string) : bool :=
  match resolve s p with Ok k => file_at s k || dir_at s k | Err _ => false end.

(** [os.path.isdir(p)], [Path(p).is_dir()] *)
Definition path_isdir (s : St) (p : string) : bool :=
  match resolve s p with Ok k => dir_at s k | Err _ => false end.

(** [os.mkdir(p)] *)
Definition os_mkdir (p : string) : M unit :=
  fun s => match resolve s p with
           | Ok k => if file_at s k || dir_at s k then (Err (FileExistsError p), s)
                     else (Ok tt, mkSt (st_fs s) (EMkdir k :: st_trace s))
           | Err e => (Err e, s)
           end.

(** [os.makedirs(name)] with [exist_ok=False]; [fuel] bounds the
    recursion on the head, which is shorter than [name]. *)
Fixpoint os_makedirs (fuel : nat) (name : string) : M unit :=
  match fuel with
  | 0 => ret tt
  | S fuel' =>
      let '(head, tail) :=
        let '(h, t) := os_path_split name in
        if String.eqb t "" then os_path_split h else (h, t) in
      fun s =>
        if negb (String.eqb head "") && negb (String.eqb tail "")
           && negb (path_exists s head)
        then match os_makedirs fuel' head s with
             | (Err (FileExistsError _), s1) | (Ok _, s1) =>
                 if String.eqb tail "." then (Ok tt, s1) else os_mkdir name s1
             | (Err e, s1) => (Err e, s1)
             end
        else os_mkdir name s
  end.

(** [str(Path(p).parent)] *)
Definition pathlib_parent (p : string) : string :=
  match pathlib_parts p with
  | [] => pathlib_str p
  | parts => pathlib_str (pathlib_root p ++ join_with "/" (removelast parts))
  end.

(** [Path(p).mkdir(parents=True, exist_ok=True)] for [p] rendered by
    [str(Path(...))]; [fuel] bounds the recursion on the parent. *)
Fixpoint pathlib_mkdir_parents (fuel : nat) (p : string) : M unit :=
  match fuel with
  | 0 => ret tt
  | S fuel' =>
      fun s =>
        match os_mkdir p s with
        | (Ok _, s1) => (Ok tt, s1)
        | (Err (FileNotFoundError _), s1) =>
            let par := pathlib_parent p in
            if String.eqb par p then (Err (FileNotFoundError p), s1) else
            match pathlib_mkdir_parents fuel' par s1 with
            | (Err e, s2) => (Err e, s2)
            | (Ok _, s2) =>
                match os_mkdir p s2 with
                | (Ok _, s3) => (Ok tt, s3)
                | (Err e, s3) => if path_isdir s3 p then (Ok tt, s3) else (Err e, s3)
                end
            end
        | (Err e, s1) => if path_isdir s1 p then (Ok tt, s1) else (Err e, s1)
        end
  end.

Definition mkdir_parents (p : string) : M unit :=
  pathlib_mkdir_parents (S (String.length p)) p.

(** [open(p, "wb")] (or ["w"]) followed by writing [c] *)
Definition os_write (p : string) (c : content) : M unit :=
  fun s => match resolve s p with
           | Err e => (Err e, s)
           | Ok k => if dir_at s k then (Err (IsADirectoryError p), s) else write_file p c s
           end.

(** the errors of the operating system raised above *)
Definition os_error (e : exn) : bool :=
  match e with
  | FileNotFoundError _ | FileExistsError _ | NotADirectoryError _ | IsADirectoryError _ => true
  | _ => false
  end.

Fixpoint count_net (tr : list event) : nat :=
  match tr with
  | [] => 0
  | ENetOpen _ :: rest => S (count_net rest)
  | _ :: rest => count_net rest
  end.

Fixpoint count_extract (tr : list event) : nat :=
  match tr with
  | [] => 0
  | EExtract _ :: rest => S (count_extract rest)
  | _ :: rest => count_extract rest
  end.

(** [fs.open(u, "rb")] on a remote URI followed by the chunked read: the
    transfer number is the number of transfers already made. *)
Definition net_fetch (E : Env) (u : string) : M net_result :=
  fun s => (Ok (net E (count_net (st_trace s)) u),
            mkSt (st_fs s) (ENetOpen u :: st_trace s)).

(** [tarfile.is_tarfile] / [zipfile.is_zipfile] on file contents. *)
Definition is_tar_content (c : content) : bool :=
  match c with TarArchive _ => true | _ => false end.
Definition is_zip_content (c : content) : bool :=
  match c with ZipArchive _ => true | _ => false end.

(** A lower-case hexadecimal MD5 digest: 32 characters in [0-9a-f]. *)
Definition is_hex_char (a : ascii) : bool :=
  let n := nat_of_ascii a in (Nat.leb 48 n && Nat.leb n 57) || (Nat.leb 97 n && Nat.leb n 102).
Fixpoint all_hex (s : string) : bool :=
  match s with EmptyString => true | String a r => is_hex_char a && all_hex r end.

(* ================================================================= *)
(** * [st_atlas_datasets]: DataFile, DownloadManager, ExtractorManager *)

Module Atlas.

(** ** [utils/data_file.py] *)

Record DataFile : Type := mkDataFile {
  uri : string;
  md5sum : option string;
  name : string
}.

(** [DataFile(uri=u, md5sum=m, name=n)]; [__post_init__] defaults the
    name to [Path(uri).name]. *)
Definition new_datafile (u : string) (m : option string) (n : string) : DataFile :=
  mkDataFile u m (if String.eqb n "" then path_name u else n).

(** [copy_with] is [dataclasses.replace], which re-runs [__post_init__];
    its [url_to_fs] is modelled in [parse] only: the manager passes
    [copy_with] the file's own URI or a path it built under its data
    directory. *)
Definition copy_with_uri (f : DataFile) (u : string) : DataFile :=
  new_datafile u (md5sum f) (name f).
Definition copy_with_md5sum (f : DataFile) (m : option string) : DataFile :=
  new_datafile (uri f) m (name f).
Definition copy_with_uri_md5sum (f : DataFile) (u : string) (m : option string) : DataFile :=
  new_datafile u m (name f).

(** [UriType = Union[str, Path, dict[str, str], DataFile]] *)
Inductive UriType : Type :=
| UStr (s : string)
| UPath (p : string)
| UDict (d : list (string * string))
| UFile (f : DataFile).

Fixpoint dict_get (d : list (string * string)) (k : string) : option string :=
  match d with
  | [] => None
  | (k', v) :: rest => if String.eqb k k' then Some v else dict_get rest k
  end.

Fixpoint find_sub (pat s : string) (i : nat) : option nat :=
  if String.prefix pat s then Some i
  else match s with
       | EmptyString => None
       | String _ r => find_sub pat r (S i)
       end.

(** [fsspec.core.split_protocol]: the protocol before ["://"], when it
    is longer than one character. *)
Definition split_protocol (u : string) : option string :=
  match find_sub "://" u 0 with
  | Some i => if Nat.ltb 1 i then Some (substring 0 i u) else None
  | None => None
  end.

(** [self._fs.protocol == ("file", "local")]: no protocol, or [file] or
    [local], selects fsspec's LocalFileSystem. *)
Definition is_local_protocol (u : string) : bool :=
  match split_protocol u with
  | None => true
  | Some p => String.eqb p "file" || String.eqb p "local"
  end.

(** [DataFile(uri=u, md5sum=m, name=n)] with its [__post_init__]:
    [fsspec.core.url_to_fs(u)] selects the LocalFileSystem for a local
    protocol and otherwise succeeds as the environment says. *)
Definition new_datafile_checked (E : Env) (u : string) (m : option string) (n : string)
  : M DataFile :=
  if is_local_protocol u || url_to_fs_ok E u then ret (new_datafile u m n)
  else raise (FsspecError u).

(** [DataFile.parse]; for a dict, the keyword call of the class accepts the
    keys [uri], [md5sum] and [name] and requires [uri].  A [DataFile] is
    returned as it is. *)
Definition parse (E : Env) (item : UriType) : M DataFile :=
  match item with
  | UFile f => ret f
  | UStr s => new_datafile_checked E s None ""
  | UPath p => new_datafile_checked E (pathlib_str p) None ""
  | UDict d =>
      if forallb (fun kv => String.eqb (fst kv) "uri" || String.eqb (fst kv) "md5sum"
                            || String.eqb (fst kv) "name") d
      then match dict_get d "uri" with
           | Some u => new_datafile_checked E u (dict_get d "md5sum")
                         (match dict_get d "name" with Some n => n | None => "" end)
           | None => raise (TypeError "missing required argument: 'uri'")
           end
      else raise (TypeError "unexpected keyword argument")
  end.

(** [DataFile.is_local_file] *)
Definition is_local_file (f : DataFile) : M bool :=
  if negb (is_local_protocol (uri f)) then ret false
  else b <- is_file (uri f) ;;
       if b then ret true else raise (FileNotFoundError (uri f)).

(** [DataFile.stem]: [self.name.rstrip(self.extention)] *)
Definition stem (f : DataFile) : string := rstrip (extention (uri f)) (name f).

(** [DataFile.build_local_filepath] *)
Definition remote_filepath (E : Env) (f : DataFile) (local_dir : string) : string :=
  let file_id := md5hex E (Blob (uri f)) in
  path_div local_dir (stem f ++ "/" ++ file_id ++ extention (uri f)).

Definition build_local_filepath (E : Env) (f : DataFile) (local_dir : string) : M string :=
  loc <- is_local_file f ;;
  if loc then ret (pathlib_str (uri f))
  else ret (remote_filepath E f local_dir).

(** ** [utils/extract_manager.py] *)

Inductive extractor : Type := TarExtractor | ZipExtractor | NotExtractable.

Definition extractor_eqb (a b : extractor) : bool :=
  match a, b with
  | TarExtractor, TarExtractor | ZipExtractor, ZipExtractor
  | NotExtractable, NotExtractable => true
  | _, _ => false
  end.

Definition VALID_EXTENSIONS (e : extractor) : list string :=
  match e with
  | TarExtractor => [".tar"; ".tar.gz"; ".tgz"; ".tar.bz2"; ".tbz2"; ".tar.xz"; ".txz"]
  | ZipExtractor => [".zip"]
  | NotExtractable => []
  end.

(** [ExtractorManager._EXTRACTORS] *)
Definition EXTRACTORS : list extractor := [TarExtractor; ZipExtractor].

(** [extractor.is_extractable(fileobj)] *)
Definition is_extractable_content (e : extractor) (c : content) : bool :=
  match e with
  | TarExtractor => is_tar_content c
  | ZipExtractor => is_zip_content c
  | NotExtractable => false
  end.

(** First loop of [get_extractor]: [uri.lower().endswith(tuple(VALID_EXTENSIONS))]. *)
Fixpoint find_by_extension (exs : list extractor) (u : string) : option extractor :=
  match exs with
  | [] => None
  | e :: rest =>
      if existsb (fun x => ends_with x (lower u)) (VALID_EXTENSIONS e) then Some e
      else find_by_extension rest u
  end.

(** Second loop of [get_extractor]: each probe reads the open file [p]
    whose content is [c]. *)
Fixpoint find_by_magic (exs : list extractor) (p : string) (c : content) : M extractor :=
  match exs with
  | [] => ret NotExtractable
  | e :: rest =>
      log (ERead (norm_key p)) ;;;
      if is_extractable_content e c then ret e else find_by_magic rest p c
  end.

(** [ExtractorManager.get_extractor], [c] being the content of the file
    object opened by [__enter__]. *)
Definition get_extractor (f : DataFile) (c : content) : M extractor :=
  match find_by_extension EXTRACTORS (uri f) with
  | Some e => ret e
  | None => find_by_magic EXTRACTORS (uri f) c
  end.

(** The target of a tar member in [TarFile._extract_one] and
    [_extract_member]: [os.path.join(path, tarinfo.name).rstrip("/")].
    [tarfile] before Python 3.14 extracts with the [fully_trusted]
    filter, which leaves member names as they are. *)
Definition tar_target (dir n : string) : string := rstrip "/" (os_path_join dir n).

(** [zipfile.ZipFile._extract_member] drops the empty, ["."] and [".."]
    components of the member name before joining and normalising. *)
Definition zip_arcname (n : string) : string :=
  join_with "/" (filter (fun x => negb (String.eqb x "" || String.eqb x "." || String.eqb x ".."))
                        (split_on slash n)).
Definition zip_target (dir n : string) : string := normpath (os_path_join dir (zip_arcname n)).

(** [upperdirs = os.path.dirname(targetpath)];
    [if upperdirs and not os.path.exists(upperdirs): os.makedirs(upperdirs)],
    in both [_extract_member]s *)
Definition make_upperdirs (targetpath : string) : M unit :=
  let upperdirs := fst (os_path_split targetpath) in
  fun s =>
    if negb (String.eqb upperdirs "") && negb (path_exists s upperdirs)
    then os_makedirs (S (String.length upperdirs)) upperdirs s
    else (Ok tt, s).

(** [TarFile._extract_member] for a regular file ([makefile]: [open(target,
    "wb")]) or a directory ([makedir]: [os.mkdir(target, 0o700)], whose
    [FileExistsError] is re-raised unless the target is a directory).
    A member is (name, regular-file flag, data), its name as [tarfile]
    reads it, with the trailing slash of a directory removed; the
    archives modelled hold regular files and directories only (no links
    or special files). *)
Definition tar_extract_member (dir : string) (m : string * bool * content) : M unit :=
  let '(n, isreg, c) := m in
  let targetpath := tar_target dir n in
  make_upperdirs targetpath ;;;
  if isreg then os_write targetpath c
  else fun s =>
    match os_mkdir targetpath s with
    | (Err (FileExistsError p), s1) =>
        if path_isdir s1 targetpath then (Ok tt, s1) else (Err (FileExistsError p), s1)
    | r => r
    end.

(** [ZipFile._extract_member]: a member is a directory when its name ends
    with ["/"] ([ZipInfo.is_dir]); the flag of the member is not read. *)
Definition zip_extract_member (dir : string) (m : string * bool * content) : M unit :=
  let '(n, _, c) := m in
  if String.eqb (zip_arcname n) "" && negb (ends_with "/" n)
  then raise (ValueError "Empty filename.") else
  let targetpath := zip_target dir n in
  make_upperdirs targetpath ;;;
  if ends_with "/" n
  then fun s => if path_isdir s targetpath then (Ok tt, s) else os_mkdir targetpath s
  else os_write targetpath c.

(** the member loop of [extractall] *)
Fixpoint extract_members (step : string -> string * bool * content -> M unit) (dir : string)
    (ms : list (string * bool * content)) : M unit :=
  match ms with
  | [] => ret tt
  | m :: rest => step dir m ;;; extract_members step dir rest
  end.

(** [[m.name for m in members if m.isfile()]] *)
Definition member_files (ms : list (string * bool * content)) : list string :=
  map (fun m => fst (fst m)) (filter (fun m => snd (fst m)) ms).

(** [[info.filename for info in infos if not info.is_dir()]] *)
Definition zip_member_files (ms : list (string * bool * content)) : list string :=
  map (fun m => fst (fst m)) (filter (fun m => negb (ends_with "/" (fst (fst m)))) ms).

(** [TarExtractor._extract], [ZipExtractor._extract], [NotExtractable._extract] *)
Definition _extract (e : extractor) (c : content) (dir : string) : M (list string) :=
  match e with
  | TarExtractor =>
      match c with
      | TarArchive ms => extract_members tar_extract_member dir ms ;;; ret (member_files ms)
      | _ => raise (ReadError "file could not be opened successfully")
      end
  | ZipExtractor =>
      match c with
      | ZipArchive ms => extract_members zip_extract_member dir ms ;;; ret (zip_member_files ms)
      | _ => raise (ReadError "File is not a zip file")
      end
  | NotExtractable => raise (NotImplementedError "File is not extractable.")
  end.

(** [BaseExtractor.extract]: [extract_dir = Path(extract_dir)],
    [extract_dir.mkdir(parents=True, exist_ok=True)], then [_extract]. *)
Definition extractor_extract (e : extractor) (c : content) (dir : string) : M (list string) :=
  log (EExtract (norm_key dir)) ;;;
  mkdir_parents (pathlib_str dir) ;;;
  _extract e c (pathlib_str dir).

(** Keys of a dict comprehension: a repeated key keeps its first position. *)
Fixpoint dict_of_list (l : list (string * string)) : list (string * string) :=
  match l with
  | [] => []
  | (k, v) :: rest =>
      (k, v) :: filter (fun kv => negb (String.eqb (fst kv) k)) (dict_of_list rest)
  end.

(** [ExtractorManager.__init__] *)
Definition em_init (E : Env) (f : DataFile) : M DataFile :=
  df <- parse E (UFile f) ;;
  loc <- is_local_file df ;;
  if negb loc then raise (ValueError ("Cannot extract '" ++ uri df ++ "', only local files are extractable."))
  else match md5sum df with
       | None | Some EmptyString => raise (ValueError ("Missing md5sum for '" ++ uri df ++ "'"))
       | Some _ => ret df
       end.

(** [ExtractorManager.__enter__]: opens the file, then [get_extractor]. *)
Definition em_enter (f : DataFile) : M (content * extractor) :=
  c <- open_file (uri f) ;;
  e <- get_extractor f c ;;
  ret (c, e).

(** [ExtractorManager.extract] *)
Definition em_extract (c : content) (e : extractor) (extract_dir : string)
  : M (list (string * string)) :=
  members <- extractor_extract e c extract_dir ;;
  ret (dict_of_list (map (fun m => (m, os_path_join extract_dir m)) members)).

(** Modelled from the spec: [ExtractorManager.is_extractable_filepath],
    called by [DownloadManager.extract] but not defined in the repository.
    Following the spec's format detection: the registered extension
    suffixes first, without opening the file; otherwise the file is
    opened and its magic bytes probed for each format in priority order;
    the path is extractable unless nothing matches. *)
Definition is_extractable_filepath (p : string) : M bool :=
  match find_by_extension EXTRACTORS p with
  | Some _ => ret true
  | None => c <- open_file p ;;
            e <- find_by_magic EXTRACTORS p c ;;
            ret (negb (extractor_eqb e NotExtractable))
  end.

(** ** [utils/download_manager.py] *)

Inductive policy : Type := Always | Never | Missing.

Definition policy_eqb (a b : policy) : bool :=
  match a, b with
  | Always, Always | Never, Never | Missing, Missing => true
  | _, _ => false
  end.

(** The fields of [DownloadManager] the pipeline reads; [data_dir] is
    already expanded and resolved. *)
Record Config : Type := mkConfig {
  download_policy : policy;
  extract_policy : policy;
  validate_checksums : bool;
  data_dir : string;
  max_workers : option Z
}.

(** [self._download_dir] *)
Definition download_dir (cfg : Config) : string := path_div (data_dir cfg) "downloads".

(** [DownloadManager.download] up to the transfer: either the result
    ([inl]) or the file to fetch and its destination ([inr]). *)
Definition download_prepare (E : Env) (cfg : Config) (u : UriType)
  : M (DataFile + (DataFile * string)) :=
  file <- parse E u ;;
  loc <- is_local_file file ;;
  if loc then ret (inl file) else
  if policy_eqb (download_policy cfg) Never
  then raise (ValueError ("Download policy is set to 'never', and " ++ uri file
                          ++ " is not a local file."))
  else
  save_path <- build_local_filepath E file (download_dir cfg) ;;
  ex <- is_file save_path ;;
  if ex && policy_eqb (download_policy cfg) Missing
  then ret (inl (copy_with_uri file save_path))
  else ret (inr (file, save_path)).

(** [with file.fs.open(file.uri, "rb") as fin: ... with open(save_path, "wb")]:
    the remote file is opened, then the destination is created empty. *)
Definition transfer_open (E : Env) (file : DataFile) (save_path : string) : M net_result :=
  r <- net_fetch E (uri file) ;;
  match r with
  | NetUnreachable => raise (OSError (uri file))
  | _ => write_file save_path (Blob "") ;;; ret r
  end.

(** the chunk loop: the received bytes end up in the destination; a read
    failure leaves the partial file in place and propagates *)
Definition transfer_finish (file : DataFile) (save_path : string) (r : net_result) : M DataFile :=
  match r with
  | NetOk c => write_file save_path c ;;; ret (copy_with_uri file save_path)
  | NetBroken partial => write_file save_path partial ;;; raise (OSError (uri file))
  | NetUnreachable => raise (OSError (uri file))
  end.

(** [DownloadManager.download] *)
Definition download (E : Env) (cfg : Config) (u : UriType) : M DataFile :=
  p <- download_prepare E cfg u ;;
  match p with
  | inl f => ret f
  | inr (file, save_path) =>
      r <- transfer_open E file save_path ;;
      transfer_finish file save_path r
  end.

(** [Path(f"{file.uri.rstrip(file.extention)}.md5sum")] *)
Definition md5sum_filepath (f : DataFile) : string :=
  pathlib_str (rstrip (extention (uri f)) (uri f) ++ ".md5sum").

Definition md5_mismatch_msg (u expected computed : string) : string :=
  "MD5Sum of " ++ u ++ " does not match expected value. Expected: " ++ expected
  ++ ", Computed: " ++ computed.

Definition lift_res {A} (r : res A) : M A := fun s => (r, s).

(** the comparison closing [DownloadManager.compute_md5sum] *)
Definition md5sum_check (cfg : Config) (file : DataFile) (computed : string) : res DataFile :=
  match md5sum file with
  | Some expected =>
      if validate_checksums cfg && negb (String.eqb expected computed)
      then Err (ValueError (md5_mismatch_msg (uri file) expected computed))
      else Ok (copy_with_md5sum file (Some computed))
  | None => Ok (copy_with_md5sum file (Some computed))
  end.

(** [DownloadManager.compute_md5sum] *)
Definition compute_md5sum (E : Env) (cfg : Config) (u : UriType) : M DataFile :=
  file <- parse E u ;;
  loc <- is_local_file file ;;
  if negb loc then raise (ValueError ("Cannot compute md5sum of non-local file " ++ uri file))
  else
  let md5sum_path := md5sum_filepath file in
  ex <- is_file md5sum_path ;;
  computed <- (if ex then read_text md5sum_path
               else c <- read_file (uri file) ;;
                    let d := md5hex E c in
                    write_file md5sum_path (Blob d) ;;;
                    ret d) ;;
  lift_res (md5sum_check cfg file computed).

Definition nl : string := String (ascii_of_nat 10) EmptyString.

(** [json.dumps(d, indent=2)] for a dict of strings (no escaping). *)
Definition json_dumps (d : list (string * string)) : string :=
  match d with
  | [] => "{}"
  | _ => "{" ++ nl
         ++ join_with ("," ++ nl)
              (map (fun kv => "  " ++ dq ++ fst kv ++ dq ++ ": " ++ dq ++ snd kv ++ dq) d)
         ++ nl ++ "}"
  end.

(** [extract_dir] and [metadata_filepath] of [DownloadManager.extract] *)
Definition extract_paths (f : DataFile) : string * string :=
  let '(head, tail) := os_path_split (normpath (rstrip (extention (uri f)) (uri f))) in
  let extract_dir := path_div (path_div head "extracted") tail in
  (extract_dir, path_div extract_dir "extracted_files.json").

(** [DownloadManager.extract] *)
Definition extract (E : Env) (cfg : Config) (u : UriType) : M DataFile :=
  file <- parse E u ;;
  if policy_eqb (extract_policy cfg) Never then ret file else
  ok <- is_extractable_filepath (uri file) ;;
  if negb ok then ret file else
  let '(extract_dir, metadata_filepath) := extract_paths file in
  ex <- is_file metadata_filepath ;;
  (if policy_eqb (extract_policy cfg) Always || negb ex
   then em <- em_init E file ;;
        ce <- em_enter em ;;
        extracted_files <- em_extract (fst ce) (snd ce) extract_dir ;;
        mkdir_parents (pathlib_parent metadata_filepath) ;;;
        os_write metadata_filepath (Blob (json_dumps extracted_files))
   else ret tt) ;;;
  ret (copy_with_uri_md5sum file metadata_filepath None).

(** [_worker] of [DownloadManager.download_and_extract] *)
Definition worker (E : Env) (cfg : Config) (u : UriType) : M DataFile :=
  f1 <- download E cfg u ;;
  f2 <- compute_md5sum E cfg (UFile f1) ;;
  extract E cfg (UFile f2).

(** ** [download_and_extract] and the thread pool *)

(** The argument of [download_and_extract]: a single [str], [Path] or
    [DataFile], a dict, or any other sequence. *)
Inductive Arg : Type :=
| ArgStr (s : string)
| ArgPath (p : string)
| ArgFile (f : DataFile)
| ArgDict (d : list (string * string))
| ArgSeq (l : list UriType).

Inductive Out : Type :=
| OutOne (f : DataFile)
| OutList (l : list DataFile).

Fixpoint set_slot {A} (l : list (option A)) (i : nat) (x : A) : list (option A) :=
  match l, i with
  | [], _ => []
  | _ :: rest, 0 => Some x :: rest
  | y :: rest, S j => y :: set_slot rest j x
  end.

(** The futures of [executor.map] complete in the order [sched]; the
    pipeline of the item with index [i] stores its result in slot [i]. *)
Fixpoint run_pool (w : UriType -> M DataFile) (items : list UriType) (sched : list nat)
    (slots : list (option (res DataFile))) (s : St) : list (option (res DataFile)) * St :=
  match sched with
  | [] => (slots, s)
  | i :: rest =>
      match nth_error items i with
      | Some u => let (r, s') := w u s in run_pool w items rest (set_slot slots i r) s'
      | None => run_pool w items rest slots s
      end
  end.

(** [list(...)] over the iterator of [executor.map]: results in input
    order; the first failed item (in input order) raises. *)
Fixpoint collect (slots : list (option (res DataFile))) : res (list DataFile) :=
  match slots with
  | [] => Ok []
  | Some (Ok x) :: rest =>
      match collect rest with Ok xs => Ok (x :: xs) | Err e => Err e end
  | Some (Err e) :: _ => Err e
  | None :: _ => Err (RuntimeError "future not completed")
  end.

(** [list(self._executor.map(_worker, items))] *)
Definition pool_map (w : UriType -> M DataFile) (sched : list nat) (items : list UriType)
  : M (list DataFile) :=
  fun s => let (slots, s') := run_pool w items sched (repeat None (length items)) s in
           (collect slots, s').

(** A completion order of [n] futures: each index below [n] exactly once. *)
Fixpoint nat_mem (x : nat) (l : list nat) : bool :=
  match l with [] => false | y :: r => Nat.eqb x y || nat_mem x r end.
Fixpoint nodupb (l : list nat) : bool :=
  match l with [] => true | x :: r => negb (nat_mem x r) && nodupb r end.
Definition is_schedule (sched : list nat) (n : nat) : bool :=
  Nat.eqb (length sched) n && forallb (fun i => Nat.ltb i n) sched && nodupb sched.

(** [DownloadManager.download_and_extract]; iterating over a dict yields
    its keys. *)
Definition download_and_extract (E : Env) (cfg : Config) (sched : list nat) (a : Arg) : M Out :=
  let single u := f <- worker E cfg u ;; ret (OutOne f) in
  let many l := fs <- pool_map (worker E cfg) sched l ;; ret (OutList fs) in
  match a with
  | ArgStr s => single (UStr s)
  | ArgPath p => single (UPath p)
  | ArgFile f => single (UFile f)
  | ArgDict d => many (map (fun kv => UStr (fst kv)) d)
  | ArgSeq l => many l
  end.

(** ** Interleaved downloads *)

(** [ThreadPoolExecutor(max_workers=self.max_workers)] in
    [__post_init__]: [None] gives [min(32, (os.cpu_count() or 1) + 4)]
    worker threads; a count [<= 0] raises [ValueError] there, so that no
    manager exists ([None] here). *)
Definition executor_max_workers (max_workers : option Z) (cpu_count : option nat)
  : option nat :=
  match max_workers with
  | None => Some (Nat.min 32 (match cpu_count with Some (S c) => S c | _ => 1 end + 4))
  | Some n => if Z.leb n 0 then None else Some (Z.to_nat n)
  end.

(** An item of [executor.map(_worker, uris)]: queued, taken by a worker
    thread and running [_worker] (in [download] before the transfer, with
    the remote file and the destination open for writing, or past
    [download], in [compute_md5sum] and [extract]), or finished. *)
Inductive dl_phase : Type :=
| DQueued (u : UriType)
| DStart (u : UriType)
| DChecked (f : DataFile) (save_path : string)
| DWriting (f : DataFile) (save_path : string) (r : net_result)
| DRest (f : DataFile)
| DDone (r : res DataFile).

Definition run_phase {A} (m : M A) (k : A -> dl_phase) (s : St) : dl_phase * St :=
  match m s with
  | (Ok a, s') => (k a, s')
  | (Err e, s') => (DDone (Err e), s')
  end.

(** One atomic step of the thread running an item: [download] up to the
    transfer, the opening of the transfer, the read loop, and the rest of
    [_worker]. *)
Definition thread_step (E : Env) (cfg : Config) (ph : dl_phase) (s : St) : dl_phase * St :=
  match ph with
  | DStart u =>
      run_phase (download_prepare E cfg u)
        (fun p => match p with
                  | inl f => DRest f
                  | inr (f, save_path) => DChecked f save_path
                  end) s
  | DChecked f save_path => run_phase (transfer_open E f save_path) (DWriting f save_path) s
  | DWriting f save_path r => run_phase (transfer_finish f save_path r) DRest s
  | DRest f1 =>
      run_phase (f2 <- compute_md5sum E cfg (UFile f1) ;; extract E cfg (UFile f2))
        (fun f3 => DDone (Ok f3)) s
  | DQueued _ | DDone _ => (ph, s)
  end.

Fixpoint replace_nth {A} (l : list A) (i : nat) (x : A) : list A :=
  match l, i with
  | [], _ => []
  | _ :: rest, 0 => x :: rest
  | y :: rest, S j => y :: replace_nth rest j x
  end.

Definition is_queued (ph : dl_phase) : bool :=
  match ph with DQueued _ => true | _ => false end.

(** taken by a thread and not finished *)
Definition is_running (ph : dl_phase) : bool :=
  match ph with DQueued _ | DDone _ => false | _ => true end.

Definition running_count (ths : list dl_phase) : nat := length (filter is_running ths).

(** The pool of [n] worker threads: an idle thread takes the oldest
    queued item (the work queue is FIFO), so that at most [n] items run at
    a time, and the scheduler steps any running item. *)
Inductive pool_step (E : Env) (cfg : Config) (n : nat)
  : St * list dl_phase -> St * list dl_phase -> Prop :=
| pool_step_take : forall s ths i u,
    nth_error ths i = Some (DQueued u) ->
    forallb (fun ph => negb (is_queued ph)) (firstn i ths) = true ->
    running_count ths < n ->
    pool_step E cfg n (s, ths) (s, replace_nth ths i (DStart u))
| pool_step_thread : forall s ths i ph ph' s',
    nth_error ths i = Some ph ->
    is_running ph = true ->
    thread_step E cfg ph s = (ph', s') ->
    pool_step E cfg n (s, ths) (s', replace_nth ths i ph').

Inductive pool_reach (E : Env) (cfg : Config) (n : nat)
  : St * list dl_phase -> St * list dl_phase -> Prop :=
| pool_reach_refl : forall c, pool_reach E cfg n c c
| pool_reach_step : forall c1 c2 c3,
    pool_step E cfg n c1 c2 -> pool_reach E cfg n c2 c3 -> pool_reach E cfg n c1 c3.

(** The items [executor.map(_worker, uris)] submits for a sequence of
    URIs: one per element, in order. *)
Definition pool_threads (l : list UriType) : list dl_phase := map DQueued l.

(** Two distinct threads hold the same destination open for writing. *)
Definition concurrent_writers (ths : list dl_phase) : Prop :=
  exists i j f1 f2 p1 p2 r1 r2, i <> j
    /\ nth_error ths i = Some (DWriting f1 p1 r1)
    /\ nth_error ths j = Some (DWriting f2 p2 r2)
    /\ norm_key p1 = norm_key p2.

(** ** Observations used by the statements *)

(** The file [download] hands on under policy [missing]: the local file
    itself, or the cache copy of a remote file. *)
Definition download_target (E : Env) (cfg : Config) (f : DataFile) : DataFile :=
  if is_local_protocol (uri f) then f
  else copy_with_uri f (remote_filepath E f (download_dir cfg)).

(** The events a run added to the trace. *)
Definition run_events (s0 s1 : St) : list event :=
  firstn (length (st_trace s1) - length (st_trace s0)) (st_trace s1).

(** The files written after the latest extraction started ([None] when
    the events contain no extraction). *)
Fixpoint writes_after_extract (tr : list event) : option (list key) :=
  match tr with
  | [] => None
  | EExtract _ :: _ => Some []
  | EWrite k :: rest => option_map (cons k) (writes_after_extract rest)
  | _ :: rest => writes_after_extract rest
  end.

Fixpoint comps_prefix (a b : list string) : bool :=
  match a, b with
  | [], _ => true
  | x :: xs, y :: ys => String.eqb x y && comps_prefix xs ys
  | _, _ => false
  end.

(** [p] lies inside directory [dir] once both are normalised. *)
Definition path_inside (dir p : string) : bool :=
  Nat.eqb (fst (norm_key dir)) (fst (norm_key p))
  && comps_prefix (snd (norm_key dir)) (snd (norm_key p)).

(** events that leave the files and the network alone *)
Definition quiet_event (e : event) : bool :=
  match e with EOpen _ | ERead _ => true | _ => false end.

(** every filled slot of the pool holds the result of the worker on the
    item of the same index, run from some state *)
Definition slots_ok (w : UriType -> M DataFile) (items : list UriType)
    (slots : list (option (res DataFile))) : Prop :=
  forall j r, nth_error slots j = Some (Some r) ->
  exists u si si', nth_error items j = Some u /\ w u si = (r, si').

(** the member predicates of [member_files] and [zip_member_files] *)
Definition tar_isfile (m : string * bool * content) : bool := snd (fst m).
Definition zip_isfile (m : string * bool * content) : bool := negb (ends_with "/" (fst (fst m))).

(** The files a successful [extract_members] writes, newest first. *)
Definition member_writes (isfile : string * bool * content -> bool)
    (target : string -> string -> string) (dir : string)
    (ms : list (string * bool * content)) : list (key * content) :=
  rev (map (fun m => (norm_key (target dir (fst (fst m))), snd m)) (filter isfile ms)).

(** the manifest [ExtractorManager.extract] returns for the member names *)
Definition manifest (dir : string) (names : list string) : list (string * string) :=
  dict_of_list (map (fun m => (m, os_path_join dir m)) names).

(** events of an extraction: files written and directories made *)
Definition ext_event (e : event) : bool :=
  match e with EWrite _ | EMkdir _ => true | _ => false end.
Definition mkdir_event (e : event) : bool :=
  match e with EMkdir _ => true | _ => false end.

(** the files written by a list of events, newest first *)
Fixpoint writes_of (ev : list event) : list key :=
  match ev with
  | [] => []
  | EWrite k :: rest => k :: writes_of rest
  | _ :: rest => writes_of rest
  end.

(** [s'] is [s] with directories made *)
Definition dirs_only (s s' : St) : Prop :=
  st_fs s' = st_fs s
  /\ exists ev, st_trace s' = (ev ++ st_trace s)%list /\ forallb mkdir_event ev = true.

(** an operation that only makes directories and raises only errors of
    the operating system *)
Definition dir_op (m : M unit) : Prop :=
  forall s, dirs_only s (snd (m s)) /\ (forall e, fst (m s) = Err e -> os_error e = true).

(** [s'] is [s] with the files [W] (newest first) written and
    directories made *)
Definition ext_step (s s' : St) (W : list (key * content)) : Prop :=
  st_fs s' = (W ++ st_fs s)%list
  /\ exists ev, st_trace s' = (ev ++ st_trace s)%list /\ forallb ext_event ev = true
                /\ writes_of ev = map fst W.

(** one member of an archive, extracted *)
Definition member_ok (step : string -> string * bool * content -> M unit)
    (isf : string * bool * content -> bool) (target : string -> string -> string)
    (P : exn -> Prop) (dir : string) : Prop :=
  forall m s,
    match step dir m s with
    | (Ok _, s') => ext_step s s' (if isf m then [(norm_key (target dir (fst (fst m))), snd m)] else [])
    | (Err e, _) => P e
    end.

End Atlas.

(* ================================================================= *)
(** * [st_visium_datasets/utils/download.py]: download with retries *)

Module Visium.

(** Modelled from the spec: [download.py] imports [DataFile] from
    [st_visium_datasets.utils.data_file], a module the repository does not
    contain.  The record follows the spec's resource descriptor (a URI, the
    expected checksum and the expected size) with the field names
    [download.py] uses: [url] is the URI as a string, which [download.py]
    passes to [Path(file.url)] and [fsspec.open(file.url, "rb")]; [md5sum] is
    the expected hex digest, compared with [==] and used in the save path;
    [size] is the expected size, only shown by the progress bar.  The other
    class of that name, [st_visium_datasets/data_file.py]'s pydantic model
    (with [url : HttpUrl]), is not the one [download.py] imports. *)
Record DataFile : Type := mkDataFile {
  url : string;
  md5sum : string;
  size : nat
}.

(** [_split_extensions] *)
Definition _split_extensions (p : string) : string * string :=
  let ext := extention p in (remove_suffix p ext, ext).

(** [download_dir / f"{file.md5sum}{ext}"] with
    [_, ext = _split_extensions(file.url)]: on the string [url] of the
    descriptor, [Path(file.url)] and the division raise nothing. *)
Definition save_path_of (download_dir : string) (file : DataFile) : string :=
  path_div download_dir (md5sum file ++ snd (_split_extensions (url file))).

(** [filepath.with_suffix(".md5sum")] *)
Definition md5sum_path_of (filepath : string) : string := with_suffix filepath ".md5sum".

(** [_validate_md5sum] *)
Definition _validate_md5sum (E : Env) (file : DataFile) (filepath : string) : M bool :=
  ex <- is_file filepath ;;
  if negb ex then raise (FileNotFoundError filepath) else
  let md5sum_path := md5sum_path_of filepath in
  mex <- is_file md5sum_path ;;
  computed <- (if mex then t <- read_text md5sum_path ;; ret (strip_ws t)
               else c <- read_file filepath ;;
                    let d := md5hex E c in
                    write_file md5sum_path (Blob d) ;;;
                    ret d) ;;
  ret (String.eqb computed (md5sum file)).

(** [_download_file] *)
Definition _download_file (E : Env) (download_dir : string) (file : DataFile)
    (force_download : bool) : M (option string) :=
  let save_path := save_path_of download_dir file in
  go <- (if force_download then ret true
         else ex <- is_file save_path ;; ret (negb ex)) ;;
  (if go
   then r <- net_fetch E (url file) ;;
        match r with
        | NetUnreachable => raise (OSError (url file))
        | NetOk c => write_file save_path (Blob "") ;;; write_file save_path c
        | NetBroken partial =>
            write_file save_path (Blob "") ;;; write_file save_path partial ;;;
            raise (OSError (url file))
        end
   else ret tt) ;;;
  is_valid <- _validate_md5sum E file save_path ;;
  if is_valid then ret (Some save_path) else ret None.

(** [extract_dir.is_dir() and list(extract_dir.iterdir())] *)
Definition dir_nonempty (d : string) : M bool :=
  fun s => (Ok (path_isdir s d
                && (existsb (fun kc => key_below (norm_key d) (fst kc)) (st_fs s)
                    || existsb (fun e => match e with EMkdir k => key_below (norm_key d) k
                                                   | _ => false end) (st_trace s))), s).

(** [_extract_file] *)
Definition _extract_file (filepath : string) (force_extract : bool) : M string :=
  ex <- is_file filepath ;;
  if negb ex then raise (FileNotFoundError filepath) else
  if negb (ends_with ".tar.gz" filepath) then ret filepath else
  let extract_dir := pathlib_str (remove_suffix filepath ".tar.gz") in
  ne <- dir_nonempty extract_dir ;;
  if ne && negb force_extract then ret extract_dir else
  log (EExtract (norm_key extract_dir)) ;;;
  mkdir_parents extract_dir ;;;
  c <- open_file filepath ;;
  match c with
  | TarArchive ms => Atlas.extract_members Atlas.tar_extract_member extract_dir ms ;;; ret extract_dir
  | _ => raise (ReadError "file could not be opened successfully")
  end.

(** the [while i < max_retries] loop of [_download_and_extract_file];
    [remaining] is [max_retries - i] *)
Fixpoint download_loop (E : Env) (download_dir : string) (file : DataFile)
    (force_download : bool) (i remaining : nat) : M (option string) :=
  match remaining with
  | 0 => ret None
  | S r =>
      save_path <- _download_file E download_dir file (force_download || Nat.ltb 0 i) ;;
      match save_path with
      | Some p => ret (Some p)
      | None => download_loop E download_dir file force_download (S i) r
      end
  end.

(** [_download_and_extract_file]; the message of the [RuntimeError] is
    [f"Failed to download {file}"], the pydantic rendering of the
    descriptor, represented here by the URL it shows. *)
Definition _download_and_extract_file (E : Env) (download_dir : string) (file : DataFile)
    (force_download force_extract : bool) (max_retries : nat) : M string :=
  save_path <- download_loop E download_dir file force_download 0 max_retries ;;
  match save_path with
  | None => raise (RuntimeError ("Failed to download " ++ url file))
  | Some p => _extract_file p force_extract
  end.

(** the work items of [download_visium_datasets], in submission order:
    [for dataset_name, files in datasets.items(): for name, file in files.items()] *)
Definition submissions (datasets : list (string * list (string * DataFile)))
  : list (string * string * DataFile) :=
  concat (map (fun d => map (fun nf => (fst d, fst nf, snd nf)) (snd d)) datasets).

(** [_worker] of [download_visium_datasets] *)
Definition visium_worker (E : Env) (download_dir : string)
    (force_download force_extract : bool) (max_retries : nat)
    (item : string * string * DataFile) : M (string * string * string) :=
  let '(dataset_name, name, file) := item in
  save_path <- _download_and_extract_file E download_dir file force_download force_extract
                 max_retries ;;
  ret (dataset_name, name, save_path).

(** The futures complete in the order [sched] (indices of submission);
    the results come out of [as_completed] in that order. *)
Fixpoint run_futures {A B} (w : A -> M B) (items : list A) (sched : list nat) (s : St)
  : list (res B) * St :=
  match sched with
  | [] => ([], s)
  | i :: rest =>
      match nth_error items i with
      | Some it => let (r, s1) := w it s in
                   let (rs, s2) := run_futures w items rest s1 in (r :: rs, s2)
      | None => run_futures w items rest s
      end
  end.

(** [d[k]] of a Python dict *)
Fixpoint dict_find {V} (d : list (string * V)) (k : string) : option V :=
  match d with
  | [] => None
  | (k', v) :: rest => if String.eqb k k' then Some v else dict_find rest k
  end.

(** [d[k] = v]: an existing key keeps its position, a new one is appended *)
Fixpoint dict_set {V} (d : list (string * V)) (k : string) (v : V) : list (string * V) :=
  match d with
  | [] => [(k, v)]
  | (k', v') :: rest => if String.eqb k k' then (k', v) :: rest else (k', v') :: dict_set rest k v
  end.

(** [local_datasets[dataset_name][name] = save_path] on a
    [defaultdict(dict)] *)
Definition set_nested (d : list (string * list (string * string))) (dn n p : string)
  : list (string * list (string * string)) :=
  dict_set d dn (dict_set (match dict_find d dn with Some inner => inner | None => [] end) n p).

(** the [for future in as_completed(futures)] loop: [future.result()]
    re-raises the exception of a failed worker *)
Fixpoint gather (rs : list (res (string * string * string)))
    (acc : list (string * list (string * string)))
  : res (list (string * list (string * string))) :=
  match rs with
  | [] => Ok acc
  | Err e :: _ => Err e
  | Ok (dn, n, p) :: rest => gather rest (set_nested acc dn n p)
  end.

(** [download_visium_datasets]: every worker runs (the executor waits for
    all of them on exit), then the results are gathered in completion
    order. *)
Definition download_visium_datasets (E : Env) (download_dir : string)
    (force_download force_extract : bool) (max_retries : nat) (sched : list nat)
    (datasets : list (string * list (string * DataFile)))
  : M (list (string * list (string * string))) :=
  fun s =>
    let (rs, s1) := run_futures (visium_worker E download_dir force_download force_extract
                                   max_retries) (submissions datasets) sched s in
    (gather rs [], s1).

(** [local_datasets[dataset_name][name]], [None] for a missing key *)
Definition nested_find (d : list (string * list (string * string))) (dn n : string)
  : option string :=
  match dict_find d dn with Some inner => dict_find inner n | None => None end.

End Visium.

(* ================================================================= *)
(** * Sample inputs *)

Module Samples.
Import Atlas.

(** A digest table standing in for [hashlib.md5(...).hexdigest()]: the
    digests of a few fixed contents (lower-case hex, 32 characters). *)
Definition sample_md5hex (c : content) : string :=
  match c with
  | Blob t =>
      if String.eqb t "" then "d41d8cd98f00b204e9800998ecf8427e"
      else if String.eqb t "hello" then "5d41402abc4b2a76b9719d911017c592"
      else "900150983cd24fb0d6963f7d28e17f72"
  | TarArchive _ => "0cc175b9c0f1b6a831c399e269772661"
  | ZipArchive _ => "92eb5ffee6ae2fec3ad71c777531578f"
  end.

(** A network on which every transfer receives [c]; fsspec serves every
    protocol. *)
Definition steady_env (c : content) : Env :=
  mkEnv sample_md5hex (fun _ _ => NetOk c) (fun _ => true).

Definition sample_env : Env := steady_env (Blob "hello").

Definition sample_cfg : Config := mkConfig Missing Missing true "/data" None.

(** a file system holding one local file *)
Definition local_state : St := mkSt [(norm_key "/data/sample.h5ad", Blob "hello")] [].

(** A remote archive given with its expected digest (the digest of every
    [TarArchive] under [sample_md5hex]). *)
Definition sample_archive_item : UriType :=
  UDict [("uri", "https://h/sample.tar"); ("md5sum", "0cc175b9c0f1b6a831c399e269772661");
         ("name", "sample")].

(** an archive with one member, [a.txt] *)
Definition plain_tar : content := TarArchive [("a.txt", true, Blob "hello")].

(** an archive whose only member lands on the [.md5sum] file kept next
    to the download of [sample_archive_item] *)
Definition memo_clobbering_tar : content :=
  TarArchive [("../../900150983cd24fb0d6963f7d28e17f72.md5sum", true, Blob "hello")].

(** an archive with a member [../../etc/passwd] *)
Definition evil_tar : content :=
  TarArchive [("../../etc/passwd", true, Blob "root")].

(** a network whose first transfer breaks off, later ones succeeding *)
Definition flaky_env : Env :=
  mkEnv sample_md5hex (fun k _ => match k with
                                  | 0 => NetBroken (Blob "hel")
                                  | _ => NetOk (Blob "hello")
                                  end)
        (fun _ => true).

(** a Visium file descriptor whose content is [Blob "hello"] *)
Definition hello_file : Visium.DataFile :=
  Visium.mkDataFile "https://h/a.txt" "5d41402abc4b2a76b9719d911017c592" 0.

(** one dataset with one file *)
Definition sample_datasets : list (string * list (string * Visium.DataFile)) :=
  [("ds", [("a", hello_file)])].

End Samples.

(* ================================================================= *)
(** * Proofs *)

Module Facts.
Import Atlas.

Lemma new_datafile_checked_pure (E : Env) (u : string) (m : option string) (n : string)
    (s : St) :
  new_datafile_checked E u m n s = (fst (new_datafile_checked E u m n s), s).
Proof.
  unfold new_datafile_checked. destruct (_ || _); reflexivity.
Qed.

Lemma parse_pure (E : Env) (u : UriType) (s : St) :
  parse E u s = (fst (parse E u s), s).
Proof.
  destruct u; simpl; try apply new_datafile_checked_pure; try reflexivity.
  destruct (forallb _ d); [destruct (dict_get d "uri")|];
    try apply new_datafile_checked_pure; reflexivity.
Qed.

Lemma is_local_file_pure (f : DataFile) (s : St) :
  is_local_file f s =
  (if is_local_protocol (uri f)
   then match fs_lookup (st_fs s) (norm_key (uri f)) with
        | Some _ => Ok true
        | None => Err (FileNotFoundError (uri f))
        end
   else Ok false, s).
Proof.
  unfold is_local_file, is_file, bind, ret, raise.
  destruct (is_local_protocol (uri f)); simpl; [|reflexivity].
  destruct (fs_lookup (st_fs s) (norm_key (uri f))); reflexivity.
Qed.

Lemma bind_inv {A B} (m : M A) (k : A -> M B) (s : St) (r : B) (s' : St) :
  bind m k s = (Ok r, s') -> exists a s1, m s = (Ok a, s1) /\ k a s1 = (Ok r, s').
Proof. unfold bind. destruct (m s) as [[a|e] s1]; [eauto | discriminate]. Qed.

Lemma bind_ok {A B} (m : M A) (k : A -> M B) (s : St) (a : A) (s1 : St) :
  m s = (Ok a, s1) -> bind m k s = k a s1.
Proof. unfold bind. intros ->. reflexivity. Qed.

(** ** Directories and extraction steps *)

Lemma resolve_comps_err (s : St) (p : string) (sl : nat) (acc comps : list string) (e : exn) :
  resolve_comps s p sl acc comps = Err e -> os_error e = true.
Proof.
  revert acc; induction comps as [|c comps IH]; intros acc; simpl; [discriminate|].
  destruct (dir_at _ _); [apply IH|].
  destruct (file_at _ _); intros H; injection H as <-; reflexivity.
Qed.

Lemma resolve_err (s : St) (p : string) (e : exn) : resolve s p = Err e -> os_error e = true.
Proof.
  unfold resolve. destruct (String.eqb p "").
  - intros H; injection H as <-; reflexivity.
  - apply resolve_comps_err.
Qed.

Lemma dirs_only_refl (s : St) : dirs_only s s.
Proof. split; [reflexivity | exists []; auto]. Qed.

Lemma dirs_only_trans (s1 s2 s3 : St) : dirs_only s1 s2 -> dirs_only s2 s3 -> dirs_only s1 s3.
Proof.
  intros [H1 (ev1 & T1 & F1)] [H2 (ev2 & T2 & F2)]. split; [congruence|].
  exists (ev2 ++ ev1)%list. rewrite T2, T1, app_assoc. split; [reflexivity|].
  rewrite forallb_app, F1, F2. reflexivity.
Qed.

Lemma ret_op : dir_op (ret tt).
Proof. intros s. split; [apply dirs_only_refl | discriminate]. Qed.

Lemma os_mkdir_op (p : string) : dir_op (os_mkdir p).
Proof.
  intros s. unfold os_mkdir. destruct (resolve s p) as [k|e0] eqn:Hr.
  - destruct (_ || _); simpl.
    + split; [apply dirs_only_refl | intros e H; injection H as <-; reflexivity].
    + split; [split; [reflexivity | exists [EMkdir k]; auto] | discriminate].
  - simpl. split; [apply dirs_only_refl | intros e H; injection H as <-; eapply resolve_err; eauto].
Qed.

Ltac split_pairs :=
  repeat match goal with
         | |- context [match os_path_split ?x with pair _ _ => _ end] =>
             let a := fresh "a" in let b := fresh "b" in destruct (os_path_split x) as [a b]
         | |- context [match (if ?c then os_path_split ?x else ?y) with pair _ _ => _ end] =>
             let a := fresh "a" in let b := fresh "b" in
             destruct (if c then os_path_split x else y) as [a b]
         end.

Lemma os_makedirs_op (fuel : nat) (name : string) : dir_op (os_makedirs fuel name).
Proof.
  revert name; induction fuel as [|fuel IH]; intros name s; [apply ret_op|].
  cbn [os_makedirs]. split_pairs.
  destruct (_ && _ && _).
  - match goal with
    | |- context [os_makedirs fuel ?h s] =>
        destruct (IH h s) as [D1 E1]; destruct (os_makedirs fuel h s) as [[u|e0] s1]
    end; simpl in D1, E1.
    + destruct (String.eqb _ "."); [split; [exact D1 | discriminate]|].
      destruct (os_mkdir_op name s1) as [D2 E2].
      split; [eapply dirs_only_trans; eauto | exact E2].
    + destruct e0; try (split; [exact D1 | intros e H; simpl in H; injection H as <-; apply E1; reflexivity]).
      destruct (String.eqb _ "."); [split; [exact D1 | discriminate]|].
      destruct (os_mkdir_op name s1) as [D2 E2].
      split; [eapply dirs_only_trans; eauto | exact E2].
  - apply os_mkdir_op.
Qed.

Lemma pathlib_mkdir_parents_op (fuel : nat) (p : string) : dir_op (pathlib_mkdir_parents fuel p).
Proof.
  revert p; induction fuel as [|fuel IH]; intros p s; [apply ret_op|].
  cbn [pathlib_mkdir_parents].
  destruct (os_mkdir_op p s) as [D1 E1].
  destruct (os_mkdir p s) as [[u|e0] s1]; simpl in D1, E1.
  - split; [exact D1 | discriminate].
  - assert (Hgen : forall s2 : St, dirs_only s s2 -> os_error e0 = true ->
              dirs_only s (snd (if path_isdir s2 p then (Ok tt, s2) else (Err e0, s2)))
              /\ (forall e, fst (if path_isdir s2 p then (Ok tt, s2) else (Err e0, s2)) = Err e
                            -> os_error e = true)).
    { intros s2 D2 E2. destruct (path_isdir s2 p); simpl;
        (split; [exact D2 | try discriminate; intros e H; injection H as <-; exact E2]). }
    specialize (E1 e0 eq_refl).
    destruct e0; try (apply Hgen; assumption).
    destruct (String.eqb (pathlib_parent p) p);
      [split; [exact D1 | intros e H; injection H as <-; reflexivity]|].
    destruct (IH (pathlib_parent p) s1) as [D2 E2].
    destruct (pathlib_mkdir_parents fuel (pathlib_parent p) s1) as [[u|e1] s2]; simpl in D2, E2.
    + destruct (os_mkdir_op p s2) as [D3 E3].
      destruct (os_mkdir p s2) as [[u'|e2] s3]; simpl in D3, E3.
      * split; [eauto using dirs_only_trans | discriminate].
      * destruct (path_isdir s3 p); simpl;
          (split; [eauto using dirs_only_trans | try discriminate; intros e H; injection H as <-; apply E3; reflexivity]).
    + split; [eauto using dirs_only_trans | intros e H; injection H as <-; apply E2; reflexivity].
Qed.

Lemma mkdir_parents_op (p : string) : dir_op (mkdir_parents p).
Proof. apply pathlib_mkdir_parents_op. Qed.

Lemma make_upperdirs_op (t : string) : dir_op (make_upperdirs t).
Proof.
  intros s. unfold make_upperdirs. destruct (_ && _); [apply os_makedirs_op | apply ret_op].
Qed.

Lemma ext_step_trans (s1 s2 s3 : St) (W1 W2 : list (key * content)) :
  ext_step s1 s2 W1 -> ext_step s2 s3 W2 -> ext_step s1 s3 (W2 ++ W1).
Proof.
  intros [H1 (ev1 & T1 & F1 & R1)] [H2 (ev2 & T2 & F2 & R2)].
  split; [rewrite H2, H1, app_assoc; reflexivity|].
  exists (ev2 ++ ev1)%list. rewrite T2, T1, app_assoc. split; [reflexivity|].
  rewrite forallb_app, F1, F2. split; [reflexivity|].
  rewrite map_app, <- R1, <- R2. clear.
  induction ev2 as [|[] ev2 IH]; simpl; rewrite ?IH; reflexivity.
Qed.

Lemma dirs_ext_step (s s' : St) : dirs_only s s' -> ext_step s s' [].
Proof.
  intros [H (ev & T & F)]. split; [exact H|]. exists ev. split; [exact T|].
  assert (G : forallb ext_event ev = true /\ writes_of ev = []).
  { clear T. induction ev as [|[] ev IH]; simpl in *; try discriminate; auto. }
  destruct G; auto.
Qed.

Lemma os_write_spec (p : string) (c : content) (s : St) :
  match os_write p c s with
  | (Ok _, s') => ext_step s s' [(norm_key p, c)]
  | (Err e, _) => os_error e = true
  end.
Proof.
  unfold os_write. destruct (resolve s p) as [k|e] eqn:Hr; [|eapply resolve_err; eauto].
  destruct (dir_at s k); [reflexivity|].
  unfold write_file. split; [reflexivity|]. exists [EWrite (norm_key p)]. auto.
Qed.

Lemma member_writes_cons (isf : string * bool * content -> bool)
    (target : string -> string -> string) (dir : string) (m : string * bool * content)
    (ms : list (string * bool * content)) :
  member_writes isf target dir (m :: ms)
  = (member_writes isf target dir ms
     ++ (if isf m then [(norm_key (target dir (fst (fst m))), snd m)] else []))%list.
Proof. unfold member_writes; simpl. destruct (isf m); simpl; [reflexivity | symmetry; apply app_nil_r]. Qed.

Lemma extract_members_spec (step : string -> string * bool * content -> M unit)
    (isf : string * bool * content -> bool) (target : string -> string -> string)
    (P : exn -> Prop) (dir : string) :
  member_ok step isf target P dir ->
  forall ms s,
    match extract_members step dir ms s with
    | (Ok _, s') => ext_step s s' (member_writes isf target dir ms)
    | (Err e, _) => P e
    end.
Proof.
  intros Hstep ms; induction ms as [|m ms IH]; intros s; simpl.
  - apply dirs_ext_step, dirs_only_refl.
  - unfold bind. specialize (Hstep m s).
    destruct (step dir m s) as [[u|e] s1]; [|exact Hstep].
    specialize (IH s1). destruct (extract_members step dir ms s1) as [[u'|e'] s2]; [|exact IH].
    rewrite member_writes_cons. eapply ext_step_trans; eauto.
Qed.

Lemma tar_member_ok (dir : string) :
  member_ok tar_extract_member tar_isfile tar_target (fun e => os_error e = true) dir.
Proof.
  intros [[n isreg] c] s. unfold tar_extract_member, tar_isfile, bind. cbn [fst snd].
  destruct (make_upperdirs_op (tar_target dir n) s) as [D1 E1].
  destruct (make_upperdirs (tar_target dir n) s) as [[u|e] s1]; simpl in D1, E1;
    [|apply E1; reflexivity].
  destruct isreg.
  - pose proof (os_write_spec (tar_target dir n) c s1) as Hw.
    destruct (os_write (tar_target dir n) c s1) as [[u'|e'] s2]; [|exact Hw].
    rewrite <- (app_nil_r [(norm_key (tar_target dir n), c)]).
    eapply ext_step_trans; [apply dirs_ext_step; exact D1 | exact Hw].
  - destruct (os_mkdir_op (tar_target dir n) s1) as [D2 E2].
    destruct (os_mkdir (tar_target dir n) s1) as [[u'|e'] s2]; simpl in D2, E2.
    + apply dirs_ext_step; eauto using dirs_only_trans.
    + specialize (E2 e' eq_refl).
      destruct e'; try exact E2.
      destruct (path_isdir s2 (tar_target dir n)); [|reflexivity].
      apply dirs_ext_step; eauto using dirs_only_trans.
Qed.

Lemma zip_member_ok (dir : string) :
  member_ok zip_extract_member zip_isfile zip_target
            (fun e => os_error e = true \/ e = ValueError "Empty filename.") dir.
Proof.
  intros [[n isf] c] s. unfold zip_extract_member, zip_isfile. cbn [fst snd].
  destruct (String.eqb (zip_arcname n) "" && negb (ends_with "/" n)); [right; reflexivity|].
  unfold bind.
  destruct (make_upperdirs_op (zip_target dir n) s) as [D1 E1].
  destruct (make_upperdirs (zip_target dir n) s) as [[u|e] s1]; simpl in D1, E1;
    [|left; apply E1; reflexivity].
  destruct (ends_with "/" n); simpl.
  - destruct (path_isdir s1 (zip_target dir n)); [apply dirs_ext_step; exact D1|].
    destruct (os_mkdir_op (zip_target dir n) s1) as [D2 E2].
    destruct (os_mkdir (zip_target dir n) s1) as [[u'|e'] s2]; simpl in D2, E2;
      [apply dirs_ext_step; eauto using dirs_only_trans | left; apply E2; reflexivity].
  - pose proof (os_write_spec (zip_target dir n) c s1) as Hw.
    destruct (os_write (zip_target dir n) c s1) as [[u'|e'] s2]; [|left; exact Hw].
    rewrite <- (app_nil_r [(norm_key (zip_target dir n), c)]).
    eapply ext_step_trans; [apply dirs_ext_step; exact D1 | exact Hw].
Qed.

(** [BaseExtractor.extract] followed by the manifest of
    [ExtractorManager.extract], on a tar archive *)
Lemma em_extract_tar (dir : string) (ms : list (string * bool * content)) (s : St) :
  match em_extract (TarArchive ms) TarExtractor dir s with
  | (Ok xs, s') => xs = manifest dir (member_files ms)
                   /\ ext_step (mkSt (st_fs s) (EExtract (norm_key dir) :: st_trace s)) s'
                               (member_writes tar_isfile tar_target (pathlib_str dir) ms)
  | (Err e, _) => os_error e = true
  end.
Proof.
  unfold em_extract, extractor_extract, _extract, bind at 1 2, log. cbn [st_fs st_trace].
  set (s0 := mkSt (st_fs s) (EExtract (norm_key dir) :: st_trace s)).
  unfold bind at 1.
  destruct (mkdir_parents_op (pathlib_str dir) s0) as [D1 E1].
  destruct (mkdir_parents (pathlib_str dir) s0) as [[u|e] s1]; simpl in D1, E1;
    [|apply E1; reflexivity].
  unfold bind.
  pose proof (extract_members_spec _ _ _ _ _ (tar_member_ok (pathlib_str dir)) ms s1) as Hm.
  destruct (extract_members tar_extract_member (pathlib_str dir) ms s1) as [[u'|e'] s2];
    [|exact Hm].
  unfold ret. split; [reflexivity|].
  rewrite <- (app_nil_r (member_writes _ _ _ ms)).
  eapply ext_step_trans; [apply dirs_ext_step; exact D1 | exact Hm].
Qed.

(** the same on a zip archive *)
Lemma em_extract_zip (dir : string) (ms : list (string * bool * content)) (s : St) :
  match em_extract (ZipArchive ms) ZipExtractor dir s with
  | (Ok xs, s') => xs = manifest dir (zip_member_files ms)
                   /\ ext_step (mkSt (st_fs s) (EExtract (norm_key dir) :: st_trace s)) s'
                               (member_writes zip_isfile zip_target (pathlib_str dir) ms)
  | (Err e, _) => os_error e = true \/ e = ValueError "Empty filename."
  end.
Proof.
  unfold em_extract, extractor_extract, _extract, bind at 1 2, log. cbn [st_fs st_trace].
  set (s0 := mkSt (st_fs s) (EExtract (norm_key dir) :: st_trace s)).
  unfold bind at 1.
  destruct (mkdir_parents_op (pathlib_str dir) s0) as [D1 E1].
  destruct (mkdir_parents (pathlib_str dir) s0) as [[u|e] s1]; simpl in D1, E1;
    [|left; apply E1; reflexivity].
  unfold bind.
  pose proof (extract_members_spec _ _ _ _ _ (zip_member_ok (pathlib_str dir)) ms s1) as Hm.
  destruct (extract_members zip_extract_member (pathlib_str dir) ms s1) as [[u'|e'] s2];
    [|exact Hm].
  unfold ret. split; [reflexivity|].
  rewrite <- (app_nil_r (member_writes _ _ _ ms)).
  eapply ext_step_trans; [apply dirs_ext_step; exact D1 | exact Hm].
Qed.

Lemma em_extract_ok (c : content) (e : extractor) (dir : string) (s : St)
    (xs : list (string * string)) (s' : St) :
  em_extract c e dir s = (Ok xs, s') ->
  exists W, ext_step (mkSt (st_fs s) (EExtract (norm_key dir) :: st_trace s)) s' W.
Proof.
  intros H. destruct e.
  - destruct c as [b|ms|ms].
    + unfold em_extract, extractor_extract, _extract, bind, log, raise in H.
      destruct (mkdir_parents _ _) as [[]]; discriminate.
    + pose proof (em_extract_tar dir ms s) as Ht. rewrite H in Ht. destruct Ht; eauto.
    + unfold em_extract, extractor_extract, _extract, bind, log, raise in H.
      destruct (mkdir_parents _ _) as [[]]; discriminate.
  - destruct c as [b|ms|ms].
    + unfold em_extract, extractor_extract, _extract, bind, log, raise in H.
      destruct (mkdir_parents _ _) as [[]]; discriminate.
    + unfold em_extract, extractor_extract, _extract, bind, log, raise in H.
      destruct (mkdir_parents _ _) as [[]]; discriminate.
    + pose proof (em_extract_zip dir ms s) as Ht. rewrite H in Ht. destruct Ht; eauto.
  - unfold em_extract, extractor_extract, _extract, bind, log, raise in H.
    destruct (mkdir_parents _ _) as [[]]; discriminate.
Qed.

End Facts.

(** ** C9: a local descriptor short-circuits [download] *)

Module LocalDownload.
Import Atlas Facts Samples.

(** C9: for every descriptor whose [is_local_file] check answers true,
    [download] returns that very descriptor (its URI unchanged) and leaves
    the state untouched: no network transfer, no read and no write. *)
Theorem download_local_no_io (E : Env) (cfg : Config) (u : UriType) (s : St)
    (f : DataFile) :
  fst (parse E u s) = Ok f ->
  fst (is_local_file f s) = Ok true ->
  download E cfg u s = (Ok f, s).
Proof.
  intros Hp Hl.
  rewrite is_local_file_pure in Hl; simpl in Hl.
  unfold download, download_prepare, bind.
  rewrite (parse_pure E u s), Hp.
  rewrite is_local_file_pure, Hl.
  reflexivity.
Qed.

Lemma download_local_no_io_witness :
  fst (parse sample_env (UStr "/data/sample.h5ad") local_state)
    = Ok (new_datafile "/data/sample.h5ad" None "")
  /\ fst (is_local_file (new_datafile "/data/sample.h5ad" None "") local_state) = Ok true
  /\ download sample_env sample_cfg (UStr "/data/sample.h5ad") local_state
     = (Ok (new_datafile "/data/sample.h5ad" None ""), local_state).
Proof.
  split; [reflexivity|].
  split; [vm_compute; reflexivity|].
  apply download_local_no_io; vm_compute; reflexivity.
Defined.

End LocalDownload.

(** ** C4: [build_local_filepath] *)

Module CachePath.
Import Atlas Facts Samples.

(** C4 (counterexample): [build_local_filepath] is not a pure function
    of the descriptor and the cache directory.  The same local descriptor
    and cache directory give [FileNotFoundError] on an empty file system
    and the file's own path on a file system holding the file. *)
Lemma build_local_filepath_reads_fs :
  fst (build_local_filepath sample_env (new_datafile "/data/sample.h5ad" None "")
         "/cache" (mkSt [] []))
    = Err (FileNotFoundError "/data/sample.h5ad")
  /\ fst (build_local_filepath sample_env (new_datafile "/data/sample.h5ad" None "")
            "/cache" local_state)
    = Ok "/data/sample.h5ad".
Proof. vm_compute; split; reflexivity. Qed.

(** C4 (amended): [build_local_filepath] leaves the state unchanged.  For
    a URI of the local protocol it checks the file system: the URI itself
    (as pathlib renders it) when the file exists, [FileNotFoundError]
    otherwise.  For a remote URI it never fails and returns
    [remote_filepath], [local_dir / "<stem>/<md5 of the URI><extension>"],
    which depends only on the URI, the declared name and the directory. *)
Theorem build_local_filepath_spec (E : Env) (f : DataFile) (local_dir : string) (s : St) :
  build_local_filepath E f local_dir s
  = (if is_local_protocol (uri f)
     then match fs_lookup (st_fs s) (norm_key (uri f)) with
          | Some _ => Ok (pathlib_str (uri f))
          | None => Err (FileNotFoundError (uri f))
          end
     else Ok (remote_filepath E f local_dir), s)
  /\ (forall f' : DataFile, uri f' = uri f -> name f' = name f ->
      remote_filepath E f' local_dir = remote_filepath E f local_dir).
Proof.
  split.
  - unfold build_local_filepath, bind.
    rewrite is_local_file_pure.
    destruct (is_local_protocol (uri f)); [|reflexivity].
    destruct (fs_lookup (st_fs s) (norm_key (uri f))); reflexivity.
  - intros f' Hu Hn. unfold remote_filepath, stem. rewrite Hu, Hn. reflexivity.
Qed.

End CachePath.

(** ** C7: the checksum memo of [compute_md5sum] *)

Module Md5Memo.
Import Atlas Facts Samples.

(** C7: let [f] be an existing local file with content [c] whose memo
    path [md5sum_filepath f] is another file.  If the memo holds the text
    [t], [compute_md5sum] takes [t] as the computed digest, reads only the
    memo (not the file) and writes nothing.  If there is no memo, it reads
    the file, writes the memo with [md5hex c] and takes that digest.  In
    both cases the digest is then handed to [md5sum_check], which, when
    checksum validation is disabled, performs no comparison and returns
    the descriptor carrying the digest. *)
Theorem compute_md5sum_memo (E : Env) (cfg : Config) (f : DataFile) (s : St) (c : content) :
  is_local_protocol (uri f) = true ->
  fs_lookup (st_fs s) (norm_key (uri f)) = Some c ->
  norm_key (md5sum_filepath f) <> norm_key (uri f) ->
  (forall t, fs_lookup (st_fs s) (norm_key (md5sum_filepath f)) = Some (Blob t) ->
     compute_md5sum E cfg (UFile f) s
     = (md5sum_check cfg f t,
        mkSt (st_fs s) (ERead (norm_key (md5sum_filepath f))
                        :: EOpen (norm_key (md5sum_filepath f)) :: st_trace s)))
  /\ (fs_lookup (st_fs s) (norm_key (md5sum_filepath f)) = None ->
     compute_md5sum E cfg (UFile f) s
     = (md5sum_check cfg f (md5hex E c),
        mkSt ((norm_key (md5sum_filepath f), Blob (md5hex E c)) :: st_fs s)
             (EWrite (norm_key (md5sum_filepath f))
              :: ERead (norm_key (uri f)) :: EOpen (norm_key (uri f)) :: st_trace s)))
  /\ (validate_checksums cfg = false ->
      forall d, md5sum_check cfg f d = Ok (copy_with_md5sum f (Some d))).
Proof.
  intros Hloc Hc Hne.
  split; [|split].
  - intros t Ht.
    unfold compute_md5sum, bind; simpl.
    rewrite is_local_file_pure, Hloc, Hc; simpl.
    unfold is_file; rewrite Ht; simpl.
    unfold read_text, read_file, bind; rewrite Ht; reflexivity.
  - intros Hn.
    unfold compute_md5sum, bind; simpl.
    rewrite is_local_file_pure, Hloc, Hc; simpl.
    unfold is_file; rewrite Hn; simpl.
    unfold read_file; rewrite Hc; reflexivity.
  - intros Hv d. unfold md5sum_check. rewrite Hv.
    destruct (md5sum f); reflexivity.
Qed.

Lemma compute_md5sum_memo_witness :
  let f := new_datafile "/data/sample.h5ad" (Some "5d41402abc4b2a76b9719d911017c592") "" in
  is_local_protocol (uri f) = true
  /\ fs_lookup (st_fs local_state) (norm_key (uri f)) = Some (Blob "hello")
  /\ norm_key (md5sum_filepath f) <> norm_key (uri f)
  /\ compute_md5sum sample_env sample_cfg (UFile f) local_state
     = (md5sum_check sample_cfg f (md5hex sample_env (Blob "hello")),
        mkSt ((norm_key (md5sum_filepath f), Blob (md5hex sample_env (Blob "hello")))
              :: st_fs local_state)
             (EWrite (norm_key (md5sum_filepath f))
              :: ERead (norm_key (uri f)) :: EOpen (norm_key (uri f))
              :: st_trace local_state)).
Proof.
  intro f.
  assert (Hne : norm_key (md5sum_filepath f) <> norm_key (uri f))
    by (vm_compute; discriminate).
  split; [reflexivity|]. split; [vm_compute; reflexivity|]. split; [exact Hne|].
  apply (compute_md5sum_memo sample_env sample_cfg f local_state (Blob "hello"));
    [reflexivity | vm_compute; reflexivity | exact Hne | vm_compute; reflexivity].
Defined.

End Md5Memo.

(** ** C10: shape and order of the results of [download_and_extract] *)

Module PoolOrder.
Import Atlas Facts Samples.

Lemma set_slot_length {A} (l : list (option A)) (i : nat) (x : A) :
  length (set_slot l i x) = length l.
Proof.
  revert i; induction l as [|y l IH]; intros [|i]; simpl; auto.
Qed.

Lemma set_slot_inv {A} (l : list (option A)) (i j : nat) (x r : A) :
  nth_error (set_slot l i x) j = Some (Some r) ->
  (i = j /\ r = x) \/ nth_error l j = Some (Some r).
Proof.
  revert i j; induction l as [|y l IH]; intros [|i] [|j]; simpl; auto.
  - intros H; injection H as ->; auto.
  - intros H. destruct (IH i j H) as [[-> ->]|H']; auto.
Qed.

Section Pool.
Variable w : UriType -> M DataFile.
Variable items : list UriType.

Lemma run_pool_ok (sched : list nat) :
  forall slots s, slots_ok w items slots ->
  slots_ok w items (fst (run_pool w items sched slots s))
  /\ length (fst (run_pool w items sched slots s)) = length slots.
Proof.
  induction sched as [|i sched IH]; intros slots s Hok; simpl; [auto|].
  destruct (nth_error items i) as [u|] eqn:Hi; [|apply IH; exact Hok].
  destruct (w u s) as [r s'] eqn:Hw.
  destruct (IH (set_slot slots i r) s') as [H1 H2].
  - intros j r' Hj. apply set_slot_inv in Hj.
    destruct Hj as [[<- ->]|Hj]; [exists u, s, s'; auto | apply Hok; exact Hj].
  - rewrite set_slot_length in H2. auto.
Qed.

End Pool.

Lemma collect_ok (slots : list (option (res DataFile))) (outs : list DataFile) :
  collect slots = Ok outs ->
  length outs = length slots
  /\ forall j o, nth_error outs j = Some o -> nth_error slots j = Some (Some (Ok o)).
Proof.
  revert outs; induction slots as [|[[x|e]|] slots IH]; intros outs; simpl.
  - intros H; injection H as <-; split; [reflexivity|intros [|j] o H; discriminate].
  - destruct (collect slots) as [xs|e] eqn:Hc; intros H; [|discriminate].
    injection H as <-. destruct (IH xs eq_refl) as [H1 H2].
    split; [simpl; auto|]. intros [|j] o Hj; simpl in *; [congruence|auto].
  - discriminate.
  - discriminate.
Qed.

Lemma slots_ok_init (w : UriType -> M DataFile) (items : list UriType) (n : nat) :
  slots_ok w items (repeat None n).
Proof.
  intros j r H. exfalso. revert j H; induction n as [|n IH]; intros [|j] H; simpl in H;
    try discriminate; exact (IH j H).
Qed.

(** C10: for a single [str], [Path] or [DataFile] argument,
    [download_and_extract] runs the pipeline once and returns a single
    descriptor.  For a sequence of [n] URIs, whatever the order in which
    the pool completes the futures, a successful call returns a list of
    length [n] whose [i]-th element is a result of the pipeline
    ([worker]) on the [i]-th URI; a sequence never yields a single
    descriptor. *)
Theorem download_and_extract_order (E : Env) (cfg : Config) (sched : list nat) :
  (forall str s, download_and_extract E cfg sched (ArgStr str) s
     = match worker E cfg (UStr str) s with
       | (Ok f, s') => (Ok (OutOne f), s')
       | (Err e, s') => (Err e, s')
       end)
  /\ (forall p s, download_and_extract E cfg sched (ArgPath p) s
     = match worker E cfg (UPath p) s with
       | (Ok f, s') => (Ok (OutOne f), s')
       | (Err e, s') => (Err e, s')
       end)
  /\ (forall f s, download_and_extract E cfg sched (ArgFile f) s
     = match worker E cfg (UFile f) s with
       | (Ok f', s') => (Ok (OutOne f'), s')
       | (Err e, s') => (Err e, s')
       end)
  /\ (forall l s outs s',
      download_and_extract E cfg sched (ArgSeq l) s = (Ok (OutList outs), s') ->
      length outs = length l
      /\ forall i o, nth_error outs i = Some o ->
         exists u si si', nth_error l i = Some u /\ worker E cfg u si = (Ok o, si'))
  /\ (forall l s f, fst (download_and_extract E cfg sched (ArgSeq l) s) <> Ok (OutOne f)).
Proof.
  split; [|split; [|split; [|split]]];
    try (intros; unfold download_and_extract, bind, ret;
         destruct (worker _ _ _ _) as [[? | ?] ?]; reflexivity).
  - intros l s outs s'.
    unfold download_and_extract, bind, ret, pool_map.
    pose proof (run_pool_ok (worker E cfg) l sched (repeat None (length l)) s
                  (slots_ok_init _ _ _)) as [Hok Hlen].
    destruct (run_pool (worker E cfg) l sched (repeat None (length l)) s) as [slots s1].
    simpl in Hok, Hlen. rewrite repeat_length in Hlen.
    destruct (collect slots) as [xs|e] eqn:Hc; intros H; [|discriminate].
    injection H as <- _.
    destruct (collect_ok slots xs Hc) as [H1 H2].
    split; [congruence|].
    intros i o Ho. exact (Hok i (Ok o) (H2 i o Ho)).
  - intros l s f. unfold download_and_extract, bind, ret, pool_map.
    destruct (run_pool _ _ _ _ _) as [slots s1].
    destruct (collect slots); simpl; discriminate.
Qed.

Lemma download_and_extract_order_witness :
  let E := steady_env (Blob "hello") in
  let cfg := mkConfig Missing Never false "/data" None in
  let l := [UStr "https://h/a.txt"; UStr "https://h/b.txt"] in
  exists outs s',
    download_and_extract E cfg [1; 0] (ArgSeq l) (mkSt [] []) = (Ok (OutList outs), s')
    /\ length outs = length l.
Proof.
  intros E cfg l.
  destruct (download_and_extract E cfg [1; 0] (ArgSeq l) (mkSt [] [])) as [r s'] eqn:H.
  vm_compute in H.
  destruct r as [[|outs]|]; try discriminate.
  exists outs, s'. split; [reflexivity|].
  exact (proj1 (proj1 (proj2 (proj2 (proj2 (download_and_extract_order E cfg [1; 0]))))
                 l (mkSt [] []) outs s' H)).
Defined.

End PoolOrder.

(** ** C8: archive format detection *)

Module Detection.
Import Atlas Facts Samples.

(** C8: format detection ([get_extractor] on the content [c] of the file
    object, and the extractability check [is_extractable_filepath] of
    [DownloadManager.extract]).  When a registered extension suffix of a
    format matches the URI, that format is chosen and neither step reads
    or opens anything, whatever the content.  Otherwise the magic bytes
    are probed (one read per probe), tar first and zip second; a content
    matching neither is [NotExtractable], and the extractability check,
    which opens the file first, answers false.  For such a file
    [DownloadManager.extract] returns the descriptor unchanged, with no
    error and no write. *)
Theorem format_detection (E : Env) (cfg : Config) (f : DataFile) (c : content) (s : St) :
  (forall e, find_by_extension EXTRACTORS (uri f) = Some e ->
     get_extractor f c s = (Ok e, s)
     /\ is_extractable_filepath (uri f) s = (Ok true, s))
  /\ (find_by_extension EXTRACTORS (uri f) = None ->
      get_extractor f c s
      = match c with
        | TarArchive _ =>
            (Ok TarExtractor, mkSt (st_fs s) (ERead (norm_key (uri f)) :: st_trace s))
        | ZipArchive _ =>
            (Ok ZipExtractor, mkSt (st_fs s) (ERead (norm_key (uri f))
                                              :: ERead (norm_key (uri f)) :: st_trace s))
        | Blob _ =>
            (Ok NotExtractable, mkSt (st_fs s) (ERead (norm_key (uri f))
                                                :: ERead (norm_key (uri f)) :: st_trace s))
        end)
  /\ (find_by_extension EXTRACTORS (uri f) = None ->
      fs_lookup (st_fs s) (norm_key (uri f)) = Some c ->
      is_extractable_filepath (uri f) s
      = (Ok (is_tar_content c || is_zip_content c),
         mkSt (st_fs s)
           ((if is_tar_content c then [ERead (norm_key (uri f))]
             else [ERead (norm_key (uri f)); ERead (norm_key (uri f))])
            ++ EOpen (norm_key (uri f)) :: st_trace s)))
  /\ (extract_policy cfg <> Never ->
      find_by_extension EXTRACTORS (uri f) = None ->
      fs_lookup (st_fs s) (norm_key (uri f)) = Some c ->
      is_tar_content c = false -> is_zip_content c = false ->
      extract E cfg (UFile f) s
      = (Ok f, mkSt (st_fs s) (ERead (norm_key (uri f)) :: ERead (norm_key (uri f))
                              :: EOpen (norm_key (uri f)) :: st_trace s))).
Proof.
  split; [|split; [|split]].
  - intros e He. unfold get_extractor, is_extractable_filepath. rewrite He. auto.
  - intros He. unfold get_extractor. rewrite He.
    destruct c; reflexivity.
  - intros He Hc. unfold is_extractable_filepath, open_file, bind. rewrite He, Hc.
    destruct c; reflexivity.
  - intros Hp He Hc Ht Hz.
    unfold extract, bind; simpl.
    destruct (extract_policy cfg); [| congruence |]; simpl;
      unfold is_extractable_filepath, open_file, bind; rewrite He, Hc;
      destruct c; try discriminate; reflexivity.
Qed.

Lemma format_detection_witness :
  let f := new_datafile "/data/notes.txt" (Some "5d41402abc4b2a76b9719d911017c592") "" in
  let s := mkSt [(norm_key "/data/notes.txt", Blob "hello")] [] in
  extract sample_env sample_cfg (UFile f) s
  = (Ok f, mkSt (st_fs s) (ERead (norm_key (uri f)) :: ERead (norm_key (uri f))
                          :: EOpen (norm_key (uri f)) :: st_trace s)).
Proof.
  intros f s.
  apply (proj2 (proj2 (proj2 (format_detection sample_env sample_cfg f (Blob "hello") s)))).
  - discriminate.
  - vm_compute; reflexivity.
  - vm_compute; reflexivity.
  - reflexivity.
  - reflexivity.
Defined.

End Detection.

(** ** C1: member paths of archives *)

Module Traversal.
Import Atlas Facts Samples.

(** C1 (counterexample): a tar archive whose member is
    [../../etc/passwd], extracted by [DownloadManager.extract] under the
    default configuration, succeeds: the member is written at
    [/data/etc/passwd], outside the extraction directory
    [/data/extracted/evil], and the manifest records the escaping path. *)
Lemma extract_tar_traversal :
  let f := new_datafile "/data/evil.tar" (Some "0cc175b9c0f1b6a831c399e269772661") "" in
  let s0 := mkSt [(norm_key "/data/evil.tar", evil_tar)] [] in
  fst (extract sample_env sample_cfg (UFile f) s0)
    = Ok (copy_with_uri_md5sum f "/data/extracted/evil/extracted_files.json" None)
  /\ fs_lookup (st_fs (snd (extract sample_env sample_cfg (UFile f) s0))) (norm_key "/data/etc/passwd")
     = Some (Blob "root")
  /\ path_inside "/data/extracted/evil" "/data/etc/passwd" = false
  /\ fs_lookup (st_fs (snd (extract sample_env sample_cfg (UFile f) s0)))
       (norm_key "/data/extracted/evil/extracted_files.json")
     = Some (Blob (json_dumps [("../../etc/passwd", "/data/extracted/evil/../../etc/passwd")])).
Proof. vm_compute. repeat split. Qed.

(** C1 (amended): [ExtractorManager.extract] makes no check of member
    paths and raises no error of its own.  On a tar archive, every error
    comes from the operating system ([FileNotFoundError],
    [FileExistsError], [NotADirectoryError], [IsADirectoryError]); on a
    zip archive, it is one of these or [zipfile]'s [ValueError("Empty
    filename.")].  When the extraction succeeds, the manifest maps each
    file member [m] to [os.path.join(extract_dir, m)] verbatim, and the
    files written are exactly the file members, each at its lexical
    target: a tar member at [os.path.join(extract_dir, m)] without
    trailing slashes, so a member with [..] components lands outside
    [extract_dir]; a zip member at [zip_target], after dropping the
    empty, ["."] and [".."] components of its name. *)
Theorem em_extract_no_member_check (dir : string) (ms : list (string * bool * content))
    (s : St) :
  (forall e s', em_extract (TarArchive ms) TarExtractor dir s = (Err e, s') ->
     os_error e = true)
  /\ (forall xs s', em_extract (TarArchive ms) TarExtractor dir s = (Ok xs, s') ->
        xs = manifest dir (member_files ms)
        /\ st_fs s' = (member_writes tar_isfile tar_target (pathlib_str dir) ms ++ st_fs s)%list)
  /\ (forall e s', em_extract (ZipArchive ms) ZipExtractor dir s = (Err e, s') ->
        os_error e = true \/ e = ValueError "Empty filename.")
  /\ (forall xs s', em_extract (ZipArchive ms) ZipExtractor dir s = (Ok xs, s') ->
        xs = manifest dir (zip_member_files ms)
        /\ st_fs s' = (member_writes zip_isfile zip_target (pathlib_str dir) ms ++ st_fs s)%list).
Proof.
  pose proof (em_extract_tar dir ms s) as Ht. pose proof (em_extract_zip dir ms s) as Hz.
  split; [|split; [|split]]; intros ? ? Hr.
  - rewrite Hr in Ht. exact Ht.
  - rewrite Hr in Ht. destruct Ht as [Hx [Hf _]]. auto.
  - rewrite Hr in Hz. exact Hz.
  - rewrite Hr in Hz. destruct Hz as [Hx [Hf _]]. auto.
Qed.

(** the theorem on a tar archive holding [../x], extracted into [/d]:
    the member is written at [/x] *)
Lemma em_extract_no_member_check_witness :
  let ms := [("../x", true, Blob "a")] in
  let s0 := mkSt [] [] in
  fst (em_extract (TarArchive ms) TarExtractor "/d" s0) = Ok (manifest "/d" ["../x"])
  /\ st_fs (snd (em_extract (TarArchive ms) TarExtractor "/d" s0)) = [(norm_key "/x", Blob "a")].
Proof.
  intros ms s0. split; [vm_compute; reflexivity|].
  refine (eq_trans (proj2 (proj1 (proj2 (em_extract_no_member_check "/d" ms s0))
                     (manifest "/d" ["../x"])
                     (snd (em_extract (TarArchive ms) TarExtractor "/d" s0)) _)) _).
  - vm_compute. reflexivity.
  - vm_compute. reflexivity.
Defined.

End Traversal.

(** ** C3: duplicate URIs in one batch *)

Module Race.
Import Atlas Facts Samples.

Lemma prepare_remote_fetch (E : Env) (cfg : Config) (s : St) (str : string) :
  is_local_protocol str = false ->
  url_to_fs_ok E str = true ->
  download_policy cfg <> Never ->
  (download_policy cfg = Always
   \/ fs_lookup (st_fs s) (norm_key (remote_filepath E (new_datafile str None "")
                                        (download_dir cfg))) = None) ->
  download_prepare E cfg (UStr str) s
  = (Ok (inr (new_datafile str None "",
              remote_filepath E (new_datafile str None "") (download_dir cfg))), s).
Proof.
  intros Hl Hu Hp Hm.
  assert (Hlf : forall s', is_local_file (new_datafile str None "") s' = (Ok false, s'))
    by (intros s'; unfold is_local_file; simpl; rewrite Hl; reflexivity).
  assert (Hparse : parse E (UStr str) s = (Ok (new_datafile str None ""), s))
    by (simpl; unfold new_datafile_checked; rewrite Hl, Hu; reflexivity).
  unfold download_prepare, build_local_filepath, bind.
  rewrite Hparse. rewrite !Hlf.
  destruct (download_policy cfg) eqn:Hd; [| congruence |]; simpl;
    rewrite ?Hlf; unfold is_file, ret; simpl.
  - destruct (fs_lookup _ _); reflexivity.
  - destruct Hm as [Hm|Hm]; [discriminate|]. rewrite Hm. reflexivity.
Qed.

Lemma transfer_open_ok (E : Env) (f : DataFile) (p : string) (s : St) :
  net E (count_net (st_trace s)) (uri f) <> NetUnreachable ->
  transfer_open E f p s
  = (Ok (net E (count_net (st_trace s)) (uri f)),
     mkSt ((norm_key p, Blob "") :: st_fs s)
          (EWrite (norm_key p) :: ENetOpen (uri f) :: st_trace s)).
Proof.
  intros H. unfold transfer_open, net_fetch, bind; simpl.
  destruct (net E (count_net (st_trace s)) (uri f)); [reflexivity|congruence|reflexivity].
Qed.

(** With at least two worker threads, both items of a batch listing the
    same remote URI twice are taken and reach the transfer, each holding
    the destination open for writing. *)
Lemma race_reach (E : Env) (cfg : Config) (n : nat) (s : St) (str : string) :
  2 <= n ->
  is_local_protocol str = false ->
  url_to_fs_ok E str = true ->
  download_policy cfg <> Never ->
  (download_policy cfg = Always
   \/ fs_lookup (st_fs s) (norm_key (remote_filepath E (new_datafile str None "")
                                        (download_dir cfg))) = None) ->
  (forall k, net E k str <> NetUnreachable) ->
  exists s2 r0 r1,
    pool_reach E cfg n (s, pool_threads [UStr str; UStr str])
      (s2, [DWriting (new_datafile str None "")
              (remote_filepath E (new_datafile str None "") (download_dir cfg)) r0;
            DWriting (new_datafile str None "")
              (remote_filepath E (new_datafile str None "") (download_dir cfg)) r1]).
Proof.
  intros Hn2 Hl Hu Hp Hm Hn.
  set (f := new_datafile str None "").
  set (p := remote_filepath E f (download_dir cfg)).
  assert (Hprep : download_prepare E cfg (UStr str) s = (Ok (inr (f, p)), s))
    by (apply prepare_remote_fetch; assumption).
  assert (Huri : uri f = str) by reflexivity.
  destruct (transfer_open E f p s) as [r0' s1] eqn:H1.
  rewrite transfer_open_ok in H1 by (rewrite Huri; apply Hn).
  injection H1 as <- <-.
  set (s1 := mkSt ((norm_key p, Blob "") :: st_fs s)
                  (EWrite (norm_key p) :: ENetOpen (uri f) :: st_trace s)).
  destruct (transfer_open E f p s1) as [r1' s2] eqn:H2.
  rewrite transfer_open_ok in H2 by (rewrite Huri; apply Hn).
  injection H2 as <- <-.
  eexists _, _, _.
  eapply pool_reach_step.
  { apply (pool_step_take E cfg n s _ 0 (UStr str)); [reflexivity | reflexivity |].
    cbn. lia. }
  eapply pool_reach_step.
  { apply (pool_step_take E cfg n s _ 1 (UStr str)); [reflexivity | reflexivity |].
    cbn. lia. }
  eapply pool_reach_step.
  { apply (pool_step_thread E cfg n s _ 0 (DStart (UStr str)) (DChecked f p) s);
      [reflexivity | reflexivity |].
    unfold thread_step, run_phase. rewrite Hprep. reflexivity. }
  eapply pool_reach_step.
  { apply (pool_step_thread E cfg n s _ 1 (DStart (UStr str)) (DChecked f p) s);
      [reflexivity | reflexivity |].
    unfold thread_step, run_phase. rewrite Hprep. reflexivity. }
  eapply pool_reach_step.
  { apply (pool_step_thread E cfg n s _ 0 (DChecked f p)
             (DWriting f p (net E (count_net (st_trace s)) (uri f))) s1);
      [reflexivity | reflexivity |].
    unfold thread_step, run_phase. rewrite transfer_open_ok by (rewrite Huri; apply Hn).
    reflexivity. }
  eapply pool_reach_step.
  { apply (pool_step_thread E cfg n s1 _ 1 (DChecked f p)
             (DWriting f p (net E (count_net (st_trace s1)) (uri f))));
      [reflexivity | reflexivity |].
    unfold thread_step, run_phase. rewrite transfer_open_ok by (rewrite Huri; apply Hn).
    reflexivity. }
  apply pool_reach_refl.
Qed.

Lemma two_writers (f : DataFile) (p : string) (r0 r1 : net_result) :
  concurrent_writers [DWriting f p r0; DWriting f p r1].
Proof.
  exists 0, 1, f, f, p, p, r0, r1. repeat split; discriminate.
Qed.

Definition b2n (b : bool) : nat := if b then 1 else 0.

Lemma running_count_replace (ths : list dl_phase) (i : nat) (old x : dl_phase) :
  nth_error ths i = Some old ->
  running_count (replace_nth ths i x) + b2n (is_running old)
  = running_count ths + b2n (is_running x).
Proof.
  unfold running_count.
  revert i; induction ths as [|y ths IH]; intros [|i] H; try discriminate.
  - injection H as ->. simpl.
    destruct (is_running old), (is_running x); simpl; lia.
  - simpl in H |- *. specialize (IH i H).
    destruct (is_running y); simpl; lia.
Qed.

Lemma running_one (ths : list dl_phase) (j : nat) (b : dl_phase) :
  nth_error ths j = Some b -> is_running b = true -> 1 <= running_count ths.
Proof.
  unfold running_count.
  revert j; induction ths as [|y ths IH]; intros [|j] H Hb; try discriminate.
  - injection H as ->. simpl. rewrite Hb. simpl. lia.
  - simpl in H |- *. specialize (IH j H Hb). destruct (is_running y); simpl; lia.
Qed.

Lemma running_two (ths : list dl_phase) (i j : nat) (a b : dl_phase) :
  i <> j -> nth_error ths i = Some a -> nth_error ths j = Some b ->
  is_running a = true -> is_running b = true -> 2 <= running_count ths.
Proof.
  revert i j; induction ths as [|y ths IH]; intros [|i] [|j] Hij Ha Hb Hra Hrb;
    try discriminate; try congruence; unfold running_count in *; simpl in Ha, Hb |- *.
  - injection Ha as ->. rewrite Hra. pose proof (running_one ths j b Hb Hrb).
    unfold running_count in *. simpl. lia.
  - injection Hb as ->. rewrite Hrb. pose proof (running_one ths i a Ha Hra).
    unfold running_count in *. simpl. lia.
  - assert (i <> j) by congruence.
    specialize (IH i j H Ha Hb Hra Hrb). destruct (is_running y); simpl; lia.
Qed.

(** No configuration of a pool of [n] threads has more than [n] items
    running. *)
Lemma pool_reach_bounded (E : Env) (cfg : Config) (n : nat) (c c' : St * list dl_phase) :
  pool_reach E cfg n c c' -> running_count (snd c) <= n -> running_count (snd c') <= n.
Proof.
  induction 1 as [c|c1 c2 c3 Hs _ IH]; [auto|].
  intros H1. apply IH. clear IH.
  destruct Hs as [s ths i u Hi _ Hlt | s ths i ph ph' s' Hi Hr _]; simpl in *.
  - pose proof (running_count_replace ths i (DQueued u) (DStart u) Hi). simpl in *. lia.
  - pose proof (running_count_replace ths i ph ph' Hi). rewrite Hr in *.
    destruct (is_running ph'); simpl in *; lia.
Qed.

Lemma running_count_pool_threads (l : list UriType) : running_count (pool_threads l) = 0.
Proof. unfold running_count, pool_threads. induction l; simpl; auto. Qed.

(** C3 (counterexample): a batch holding the same remote URI twice, on an
    empty file system with the default configuration, whose pool has at
    least five threads: the pool can run both pipelines up to the
    transfer, so that two threads hold the same cache file open for
    writing at the same time. *)
Lemma duplicate_uri_race_example :
  executor_max_workers (max_workers sample_cfg) None = Some 5
  /\ exists c,
    pool_reach sample_env sample_cfg 5
      (mkSt [] [], pool_threads [UStr "https://h/x.tar"; UStr "https://h/x.tar"]) c
    /\ concurrent_writers (snd c).
Proof.
  split; [reflexivity|].
  destruct (race_reach sample_env sample_cfg 5 (mkSt [] []) "https://h/x.tar")
    as (s2 & r0 & r1 & H);
    [lia | vm_compute; reflexivity | reflexivity | discriminate
    | right; vm_compute; reflexivity | intros k; discriminate |].
  eexists; split; [exact H | apply two_writers].
Qed.

(** C3 (amended): [download_and_extract] neither de-duplicates nor
    serializes the items it submits to its pool of [n] worker threads.
    For every remote URI that fsspec can serve, whose cache file is absent
    (or under download policy [always]), and a network that answers, a
    batch listing that URI twice can reach a state where two threads write
    the same cache file concurrently exactly when the pool has at least
    two threads ([max_workers] unset, or at least 2). *)
Theorem duplicate_uris_not_serialized (E : Env) (cfg : Config) (s : St) (str : string)
    (cpu_count : option nat) (n : nat) :
  executor_max_workers (max_workers cfg) cpu_count = Some n ->
  is_local_protocol str = false ->
  url_to_fs_ok E str = true ->
  download_policy cfg <> Never ->
  (download_policy cfg = Always
   \/ fs_lookup (st_fs s) (norm_key (remote_filepath E (new_datafile str None "")
                                        (download_dir cfg))) = None) ->
  (forall k, net E k str <> NetUnreachable) ->
  (exists c, pool_reach E cfg n (s, pool_threads [UStr str; UStr str]) c
             /\ concurrent_writers (snd c))
  <-> 2 <= n.
Proof.
  intros _ Hl Hu Hp Hm Hn. split.
  - intros (c & Hr & (i & j & f1 & f2 & p1 & p2 & r1 & r2 & Hij & Hi & Hj & _)).
    pose proof (pool_reach_bounded E cfg n _ _ Hr) as Hb.
    specialize (Hb ltac:(cbn [snd]; rewrite running_count_pool_threads; lia)).
    pose proof (running_two (snd c) i j _ _ Hij Hi Hj eq_refl eq_refl). lia.
  - intros Hn2.
    destruct (race_reach E cfg n s str Hn2 Hl Hu Hp Hm Hn) as (s2 & r0 & r1 & H).
    eexists; split; [exact H | apply two_writers].
Qed.

Lemma duplicate_uris_not_serialized_witness :
  executor_max_workers (Some 2%Z) None = Some 2
  /\ exists c,
    pool_reach (steady_env (Blob "hello")) (mkConfig Always Missing false "/srv" (Some 2%Z)) 2
      (mkSt [] [], pool_threads [UStr "s3://bucket/a.zip"; UStr "s3://bucket/a.zip"]) c
    /\ concurrent_writers (snd c).
Proof.
  split; [reflexivity|].
  refine (proj2 (duplicate_uris_not_serialized (steady_env (Blob "hello"))
                   (mkConfig Always Missing false "/srv" (Some 2%Z)) (mkSt [] [])
                   "s3://bucket/a.zip" None 2 _ _ _ _ _ _) _);
    [reflexivity | vm_compute; reflexivity | reflexivity | discriminate
    | left; reflexivity | intros k; discriminate | lia].
Defined.

End Race.

(** ** Keys and digests *)

Module Keys.

Lemma key_eqb_eq (k1 k2 : key) : key_eqb k1 k2 = true <-> k1 = k2.
Proof.
  destruct k1 as [n1 l1], k2 as [n2 l2]; unfold key_eqb; simpl.
  rewrite andb_true_iff, Nat.eqb_eq.
  assert (H : (fix eql (a b : list string) : bool :=
        match a, b with
        | [], [] => true
        | x :: xs, y :: ys => String.eqb x y && eql xs ys
        | _, _ => false
        end) l1 l2 = true <-> l1 = l2).
  { revert l2; induction l1 as [|x l1 IH]; intros [|y l2]; simpl;
      try (split; intros; congruence).
    rewrite andb_true_iff, String.eqb_eq, IH. split; [intros [-> ->]; reflexivity|].
    intros H; injection H as -> ->; auto. }
  rewrite H. split; [intros [-> ->]; reflexivity | intros H'; injection H' as -> ->; auto].
Qed.

Lemma key_eqb_refl (k : key) : key_eqb k k = true.
Proof. apply key_eqb_eq; reflexivity. Qed.

Lemma key_eqb_neq (k1 k2 : key) : k1 <> k2 -> key_eqb k1 k2 = false.
Proof. intros H. destruct (key_eqb k1 k2) eqn:E; [apply key_eqb_eq in E; congruence|reflexivity]. Qed.

Lemma hex_not_ws (a : ascii) : is_hex_char a = true -> char_in a whitespace = false.
Proof.
  intros H. destruct a as [[] [] [] [] [] [] [] []];
    (reflexivity || (vm_compute in H; discriminate)).
Qed.

Lemma strip_ws_hex (s : string) : all_hex s = true -> strip_ws s = s.
Proof.
  intros H. unfold strip_ws.
  assert (Hl : lstrip whitespace s = s).
  { destruct s as [|a s]; [reflexivity|]. simpl in H.
    apply andb_true_iff in H as [Ha _]. cbn [lstrip]. rewrite (hex_not_ws a Ha). reflexivity. }
  rewrite Hl. clear Hl.
  induction s as [|a s IH]; [reflexivity|].
  simpl in H. apply andb_true_iff in H as [Ha Hs].
  cbn [rstrip]. rewrite (IH Hs). destruct s; [|reflexivity].
  rewrite (hex_not_ws a Ha). reflexivity.
Qed.

End Keys.

(** ** C2, C6: the retry loop of [st_visium_datasets] *)

Module Retry.
Import Keys Visium Samples.

Section Dl.
Variables (E : Env) (dir : string) (file : DataFile).
Let save := save_path_of dir file.



Lemma dl_transfer_error (force : bool) (s : St) :
  (force = true \/ fs_lookup (st_fs s) (norm_key save) = None) ->
  (forall c, net E (count_net (st_trace s)) (url file) <> NetOk c) ->
  exists s', _download_file E dir file force s = (Err (OSError (url file)), s')
    /\ count_net (st_trace s') = S (count_net (st_trace s))
    /\ count_extract (st_trace s') = count_extract (st_trace s).
Proof.
  intros Hf Hn.
  assert (Hgo : (if force then ret true
                 else ex <- is_file save ;; ret (negb ex)) s = (Ok true, s)).
  { destruct Hf as [->|Hs]; [reflexivity|].
    destruct force; [reflexivity|]. unfold is_file, bind, ret. simpl. rewrite Hs. reflexivity. }
  unfold _download_file, bind at 1. fold save. rewrite Hgo.
  unfold bind, ret, net_fetch. simpl.
  destruct (net E (count_net (st_trace s)) (url file)) eqn:Hr;
    [exfalso; exact (Hn c eq_refl) | |]; simpl; eexists; split; try reflexivity; auto.
Qed.

Lemma validate_counts (p : string) (s : St) :
  count_net (st_trace (snd (_validate_md5sum E file p s))) = count_net (st_trace s)
  /\ count_extract (st_trace (snd (_validate_md5sum E file p s))) = count_extract (st_trace s).
Proof.
  unfold _validate_md5sum, is_file, bind, ret, raise.
  destruct (fs_lookup (st_fs s) (norm_key p)) as [cp|]; simpl; [|auto].
  destruct (fs_lookup (st_fs s) (norm_key (md5sum_path_of p))) as [cm|] eqn:Hm; simpl.
  - unfold read_text, read_file, bind. rewrite Hm. destruct cm; simpl; auto.
  - unfold read_file, bind. destruct (fs_lookup (st_fs s) (norm_key p)); simpl; auto.
Qed.

Lemma dl_forced_one_transfer (s : St) :
  count_net (st_trace (snd (_download_file E dir file true s))) = S (count_net (st_trace s)).
Proof.
  unfold _download_file, bind, ret, net_fetch, raise. simpl.
  destruct (net E (count_net (st_trace s)) (url file)); simpl; try reflexivity;
    match goal with
    |- context [_validate_md5sum E file ?p ?s'] =>
      pose proof (validate_counts p s') as [H1 _];
      destruct (_validate_md5sum E file p s') as [[[]|] s''] eqn:Hv; simpl in *; rewrite H1; reflexivity
    end.
Qed.

Lemma loop_forced (fd : bool) (r : nat) :
  forall i s, 0 < i ->
  download_loop E dir file fd i r s = download_loop E dir file true i r s.
Proof.
  induction r as [|r IH]; intros i s Hi; [reflexivity|].
  simpl. replace (fd || Nat.ltb 0 i) with true
    by (symmetry; apply orb_true_iff; right; apply Nat.ltb_lt; exact Hi).
  unfold bind. destruct (_download_file E dir file true s) as [[[p|]|e] s'] eqn:H;
    [reflexivity | apply IH; lia | reflexivity].
Qed.

End Dl.





(** C6 (counterexample): the first transfer breaks off and the error
    escapes at once: one transfer, no retry, although the next transfer
    would have received the right content (the same call, made once one
    transfer has already happened, succeeds). *)
Lemma transfer_error_escapes :
  let file := mkDataFile "https://cf.example.com/samples/s1/matrix.h5"
                "5d41402abc4b2a76b9719d911017c592" 100 in
  fst (_download_and_extract_file flaky_env "/dl" file false false 3 (mkSt [] []))
    = Err (OSError (url file))
  /\ count_net (st_trace (snd (_download_and_extract_file flaky_env "/dl" file false false 3
                                 (mkSt [] [])))) = 1
  /\ fst (_download_and_extract_file flaky_env "/dl" file false false 3
           (mkSt [] [ENetOpen "https://cf.example.com/samples/s1/matrix.h5"]))
    = Ok "/dl/5d41402abc4b2a76b9719d911017c592.h5".
Proof. vm_compute. repeat split. Qed.

(** C6 (amended): in [st_visium_datasets], a transfer error is not
    retried.  When the first transfer fails (the remote file cannot be
    opened or the read breaks off) and the download is forced or the file
    is not cached, the error propagates out of the pipeline after that one
    transfer, whatever [max_retries], and no extraction is started.  The
    retries that do happen, after a checksum mismatch, are forced
    downloads: from the second attempt on the loop behaves as if
    [force_download] were set, and a forced attempt always makes a fresh
    transfer. *)
Theorem transfer_error_not_retried (E : Env) (dir : string) (file : DataFile)
    (fd fe : bool) (n : nat) (s : St) :
  0 < n ->
  (fd = true \/ fs_lookup (st_fs s) (norm_key (save_path_of dir file)) = None) ->
  (forall c, net E (count_net (st_trace s)) (url file) <> NetOk c) ->
  (exists s', _download_and_extract_file E dir file fd fe n s = (Err (OSError (url file)), s')
     /\ count_net (st_trace s') = S (count_net (st_trace s))
     /\ count_extract (st_trace s') = count_extract (st_trace s))
  /\ (forall i r s0, 0 < i ->
      download_loop E dir file fd i r s0 = download_loop E dir file true i r s0)
  /\ (forall s0, count_net (st_trace (snd (_download_file E dir file true s0)))
                = S (count_net (st_trace s0))).
Proof.
  intros Hpos Hf Hn.
  split; [|split; [intros; apply loop_forced; assumption | apply dl_forced_one_transfer]].
  destruct n as [|r]; [lia|].
  assert (Hf' : fd || Nat.ltb 0 0 = true \/ fs_lookup (st_fs s) (norm_key (save_path_of dir file)) = None)
    by (rewrite orb_false_r; exact Hf).
  destruct (dl_transfer_error E dir file (fd || Nat.ltb 0 0) s Hf' Hn) as (s' & H1 & H2 & H3).
  exists s'. unfold _download_and_extract_file, bind. cbn [download_loop]. unfold bind.
  rewrite H1. auto.
Qed.

Lemma transfer_error_not_retried_witness :
  let file := mkDataFile "https://cf.example.com/samples/s1/matrix.h5"
                "5d41402abc4b2a76b9719d911017c592" 100 in
  exists s', _download_and_extract_file flaky_env "/dl" file false false 3 (mkSt [] [])
             = (Err (OSError (url file)), s')
    /\ count_net (st_trace s') = 1
    /\ count_extract (st_trace s') = 0.
Proof.
  intros file.
  apply (transfer_error_not_retried flaky_env "/dl" file false false 3 (mkSt [] []));
    [lia | right; reflexivity | intros c; discriminate].
Defined.

End Retry.

(* ================================================================= *)
(** * The pipeline run twice under policy [missing] *)

Module Pipeline.
Import Atlas Facts Keys Traversal Samples.

Lemma lookup_app_notin (W fs : list (key * content)) (k : key) :
  ~ In k (map fst W) -> fs_lookup (W ++ fs)%list k = fs_lookup fs k.
Proof.
  induction W as [|[k' c] W IH]; simpl; intros Hn; [reflexivity|].
  rewrite key_eqb_neq by (intros ->; apply Hn; left; reflexivity).
  apply IH. intros H; apply Hn; right; exact H.
Qed.

Lemma lookup_app_some (W fs : list (key * content)) (k : key) :
  fs_lookup fs k <> None -> fs_lookup (W ++ fs)%list k <> None.
Proof.
  induction W as [|[k' c] W IH]; simpl; intros Hn; [exact Hn|].
  destruct (key_eqb k k'); [discriminate | apply IH; exact Hn].
Qed.

Lemma count_net_app (a b : list event) : count_net (a ++ b)%list = count_net a + count_net b.
Proof. induction a as [|[] a IH]; simpl; auto. Qed.

Lemma count_extract_app (a b : list event) :
  count_extract (a ++ b)%list = count_extract a + count_extract b.
Proof. induction a as [|[] a IH]; simpl; auto. Qed.

Lemma quiet_counts (ev : list event) :
  forallb quiet_event ev = true -> count_net ev = 0 /\ count_extract ev = 0.
Proof.
  induction ev as [|[] ev IH]; simpl; try discriminate; auto.
Qed.

Lemma run_events_app (s0 s1 : St) (ev : list event) :
  st_trace s1 = (ev ++ st_trace s0)%list -> run_events s0 s1 = ev.
Proof.
  intros H. unfold run_events. rewrite H, length_app.
  replace (length ev + length (st_trace s0) - length (st_trace s0)) with (length ev) by lia.
  rewrite firstn_app, Nat.sub_diag, firstn_all. simpl. apply app_nil_r.
Qed.

Lemma writes_after_extract_ext (ev : list event) (d : key) (rest : list event) :
  forallb ext_event ev = true ->
  writes_after_extract (ev ++ EExtract d :: rest)%list = Some (writes_of ev).
Proof.
  induction ev as [|[] ev IH]; simpl; try discriminate; auto;
    intros H; rewrite IH by exact H; reflexivity.
Qed.

Lemma ext_counts (ev : list event) :
  forallb ext_event ev = true -> count_net ev = 0 /\ count_extract ev = 0.
Proof. induction ev as [|[] ev IH]; simpl; try discriminate; auto. Qed.

Lemma parse_indep (E : Env) (u : UriType) (s s' : St) : fst (parse E u s) = fst (parse E u s').
Proof.
  rewrite (parse_pure E u s), (parse_pure E u s').
  destruct u; simpl; unfold new_datafile_checked; try destruct (_ || _); try reflexivity.
  destruct (forallb _ d); [destruct (dict_get d "uri")|]; try destruct (_ || _); reflexivity.
Qed.

Lemma find_by_magic_quiet (exs : list extractor) (p : string) (c : content) (s : St) :
  exists e ev, find_by_magic exs p c s = (Ok e, mkSt (st_fs s) (ev ++ st_trace s))
    /\ forallb quiet_event ev = true.
Proof.
  revert s; induction exs as [|x exs IH]; intros s; simpl.
  - exists NotExtractable, []. destruct s; auto.
  - unfold bind, log, ret. simpl.
    destruct (is_extractable_content x c).
    + exists x, [ERead (norm_key p)]. auto.
    + destruct (IH (mkSt (st_fs s) (ERead (norm_key p) :: st_trace s))) as (e & ev & H1 & H2).
      exists e, (ev ++ [ERead (norm_key p)])%list. rewrite H1, <- app_assoc. simpl.
      split; [reflexivity|]. rewrite forallb_app, H2. reflexivity.
Qed.

(** the answer of [is_extractable_filepath] depends only on the path and
    the content stored there *)
Lemma is_extractable_filepath_quiet (p : string) (s : St) :
  exists ev, is_extractable_filepath p s
    = (match find_by_extension EXTRACTORS p with
       | Some _ => Ok true
       | None => match fs_lookup (st_fs s) (norm_key p) with
                 | Some c => Ok (is_tar_content c || is_zip_content c)
                 | None => Err (FileNotFoundError p)
                 end
       end, mkSt (st_fs s) (ev ++ st_trace s))
    /\ forallb quiet_event ev = true.
Proof.
  unfold is_extractable_filepath.
  destruct (find_by_extension EXTRACTORS p).
  - exists []. destruct s; auto.
  - unfold open_file, bind. destruct (fs_lookup (st_fs s) (norm_key p)) as [c|] eqn:Hc.
    + destruct c; simpl; unfold bind, log, ret; simpl.
      * exists [ERead (norm_key p); ERead (norm_key p); EOpen (norm_key p)]. auto.
      * exists [ERead (norm_key p); EOpen (norm_key p)]. auto.
      * exists [ERead (norm_key p); ERead (norm_key p); EOpen (norm_key p)]. auto.
    + exists []. destruct s; auto.
Qed.

Lemma download_prepare_missing (E : Env) (cfg : Config) (u : UriType) (s : St) :
  download_policy cfg = Missing ->
  download_prepare E cfg u s
  = (match fst (parse E u s) with
     | Err e => Err e
     | Ok f =>
         if is_local_protocol (uri f)
         then match fs_lookup (st_fs s) (norm_key (uri f)) with
              | Some _ => Ok (inl f)
              | None => Err (FileNotFoundError (uri f))
              end
         else match fs_lookup (st_fs s) (norm_key (remote_filepath E f (download_dir cfg))) with
              | Some _ => Ok (inl (copy_with_uri f (remote_filepath E f (download_dir cfg))))
              | None => Ok (inr (f, remote_filepath E f (download_dir cfg)))
              end
     end, s).
Proof.
  intros Hpol.
  unfold download_prepare, bind at 1. rewrite (parse_pure E u s).
  destruct (fst (parse E u s)) as [f|e]; cbn [fst]; [|reflexivity].
  unfold bind at 1. rewrite is_local_file_pure.
  destruct (is_local_protocol (uri f)) eqn:Hl.
  - destruct (fs_lookup (st_fs s) (norm_key (uri f))); reflexivity.
  - cbv beta iota. rewrite Hpol. unfold build_local_filepath, bind. cbn [policy_eqb andb].
    rewrite is_local_file_pure, Hl. cbv beta iota.
    unfold is_file, ret. simpl.
    destruct (fs_lookup (st_fs s) (norm_key (remote_filepath E f (download_dir cfg)))); reflexivity.
Qed.

Lemma download_result (E : Env) (cfg : Config) (u : UriType) (f : DataFile) (s0 : St)
    (f1 : DataFile) (sA : St) :
  download_policy cfg = Missing ->
  fst (parse E u s0) = Ok f ->
  download E cfg u s0 = (Ok f1, sA) ->
  f1 = download_target E cfg f
  /\ fs_lookup (st_fs sA) (norm_key (uri f1)) <> None
  /\ exists W ev, st_fs sA = (W ++ st_fs s0)%list /\ st_trace sA = (ev ++ st_trace s0)%list
       /\ count_net ev <= 1 /\ count_extract ev = 0.
Proof.
  intros Hpol Hp H.
  unfold download, bind at 1 in H.
  rewrite (download_prepare_missing E cfg u s0 Hpol), Hp in H. cbv beta iota in H.
  unfold download_target.
  destruct (is_local_protocol (uri f)) eqn:Hl.
  - destruct (fs_lookup (st_fs s0) (norm_key (uri f))) eqn:Hx; [|discriminate].
    unfold ret in H. injection H as <- <-.
    split; [reflexivity|]. split; [rewrite Hx; discriminate|].
    exists [], []. simpl. auto.
  - set (p := remote_filepath E f (download_dir cfg)) in *.
    destruct (fs_lookup (st_fs s0) (norm_key p)) eqn:Hx.
    + unfold ret in H. injection H as <- <-.
      split; [reflexivity|]. split; [simpl; rewrite Hx; discriminate|].
      exists [], []. simpl. auto.
    + unfold bind, transfer_open, net_fetch, bind in H. simpl in H.
      destruct (net E (count_net (st_trace s0)) (uri f)) as [c| |c] eqn:Hn;
        simpl in H; try discriminate.
      unfold bind, write_file, ret in H. simpl in H. injection H as <- <-.
      split; [reflexivity|]. split; [simpl; rewrite key_eqb_refl; discriminate|].
      exists [(norm_key p, c); (norm_key p, Blob "")],
             [EWrite (norm_key p); EWrite (norm_key p); ENetOpen (uri f)].
      simpl. auto.
Qed.

Lemma download_again (E : Env) (cfg : Config) (u : UriType) (s0 : St) (f1 : DataFile)
    (sA s : St) :
  download_policy cfg = Missing ->
  download E cfg u s0 = (Ok f1, sA) ->
  fs_lookup (st_fs s) (norm_key (uri f1)) <> None ->
  download E cfg u s = (Ok f1, s).
Proof.
  intros Hpol H Hs.
  destruct (fst (parse E u s0)) as [f|e] eqn:Hp.
  2:{ unfold download, bind at 1 in H.
      rewrite (download_prepare_missing E cfg u s0 Hpol), Hp in H. discriminate. }
  destruct (download_result E cfg u f s0 f1 sA Hpol Hp H) as [Hf1 _].
  unfold download, bind at 1.
  rewrite (download_prepare_missing E cfg u s Hpol), (parse_indep E u s s0), Hp.
  cbv beta iota. subst f1. unfold download_target in Hs |- *.
  destruct (is_local_protocol (uri f)).
  - destruct (fs_lookup (st_fs s) (norm_key (uri f))); [reflexivity|congruence].
  - simpl in Hs. destruct (fs_lookup (st_fs s) _); [reflexivity|congruence].
Qed.

Lemma compute_md5sum_hit (E : Env) (cfg : Config) (f : DataFile) (s : St) (t : string) :
  is_local_protocol (uri f) = true ->
  fs_lookup (st_fs s) (norm_key (uri f)) <> None ->
  fs_lookup (st_fs s) (norm_key (md5sum_filepath f)) = Some (Blob t) ->
  compute_md5sum E cfg (UFile f) s
  = (md5sum_check cfg f t,
     mkSt (st_fs s) (ERead (norm_key (md5sum_filepath f))
                     :: EOpen (norm_key (md5sum_filepath f)) :: st_trace s)).
Proof.
  intros Hloc Hc Ht.
  destruct (fs_lookup (st_fs s) (norm_key (uri f))) as [c|] eqn:Hc'; [|congruence].
  unfold compute_md5sum, bind; simpl.
  rewrite is_local_file_pure, Hloc, Hc'; simpl.
  unfold is_file; rewrite Ht; simpl.
  unfold read_text, read_file, bind; rewrite Ht; reflexivity.
Qed.

Lemma compute_md5sum_miss (E : Env) (cfg : Config) (f : DataFile) (s : St) (c : content) :
  is_local_protocol (uri f) = true ->
  fs_lookup (st_fs s) (norm_key (uri f)) = Some c ->
  fs_lookup (st_fs s) (norm_key (md5sum_filepath f)) = None ->
  compute_md5sum E cfg (UFile f) s
  = (md5sum_check cfg f (md5hex E c),
     mkSt ((norm_key (md5sum_filepath f), Blob (md5hex E c)) :: st_fs s)
          (EWrite (norm_key (md5sum_filepath f))
           :: ERead (norm_key (uri f)) :: EOpen (norm_key (uri f)) :: st_trace s)).
Proof.
  intros Hloc Hc Hn.
  unfold compute_md5sum, bind; simpl.
  rewrite is_local_file_pure, Hloc, Hc; simpl.
  unfold is_file; rewrite Hn; simpl.
  unfold read_file; rewrite Hc; reflexivity.
Qed.

Lemma md5sum_check_uri (cfg : Config) (f f2 : DataFile) (t : string) :
  md5sum_check cfg f t = Ok f2 -> uri f2 = uri f.
Proof.
  unfold md5sum_check. destruct (md5sum f);
    [destruct (validate_checksums cfg && _); [discriminate|]|];
    intros H; injection H as <-; reflexivity.
Qed.

Lemma compute_result (E : Env) (cfg : Config) (f1 : DataFile) (sA : St) (f2 : DataFile)
    (sB : St) :
  compute_md5sum E cfg (UFile f1) sA = (Ok f2, sB) ->
  is_local_protocol (uri f1) = true /\ uri f2 = uri f1
  /\ (exists t, fs_lookup (st_fs sB) (norm_key (md5sum_filepath f1)) = Some (Blob t)
                /\ md5sum_check cfg f1 t = Ok f2)
  /\ exists W ev, st_fs sB = (W ++ st_fs sA)%list /\ st_trace sB = (ev ++ st_trace sA)%list
       /\ count_net ev = 0 /\ count_extract ev = 0.
Proof.
  intros H.
  destruct (is_local_protocol (uri f1)) eqn:Hl.
  2:{ unfold compute_md5sum, bind in H; simpl in H.
      rewrite is_local_file_pure, Hl in H. discriminate. }
  destruct (fs_lookup (st_fs sA) (norm_key (uri f1))) as [c|] eqn:Hc.
  2:{ unfold compute_md5sum, bind in H; simpl in H.
      rewrite is_local_file_pure, Hl, Hc in H. discriminate. }
  destruct (fs_lookup (st_fs sA) (norm_key (md5sum_filepath f1))) as [[t|ms|ms]|] eqn:Hm.
  - rewrite (compute_md5sum_hit E cfg f1 sA t Hl) in H by (congruence || assumption).
    injection H as Hck <-.
    split; [reflexivity|]. split; [exact (md5sum_check_uri cfg f1 f2 t Hck)|].
    split; [exists t; auto|].
    exists [], [ERead (norm_key (md5sum_filepath f1)); EOpen (norm_key (md5sum_filepath f1))].
    simpl. auto.
  - unfold compute_md5sum, bind in H; simpl in H.
    rewrite is_local_file_pure, Hl, Hc in H; simpl in H.
    unfold is_file in H; rewrite Hm in H; simpl in H.
    unfold read_text, read_file, bind in H; rewrite Hm in H; discriminate.
  - unfold compute_md5sum, bind in H; simpl in H.
    rewrite is_local_file_pure, Hl, Hc in H; simpl in H.
    unfold is_file in H; rewrite Hm in H; simpl in H.
    unfold read_text, read_file, bind in H; rewrite Hm in H; discriminate.
  - rewrite (compute_md5sum_miss E cfg f1 sA c Hl Hc Hm) in H.
    injection H as Hck <-.
    split; [reflexivity|]. split; [exact (md5sum_check_uri cfg f1 f2 _ Hck)|].
    split; [exists (md5hex E c); simpl; rewrite key_eqb_refl; auto|].
    exists [(norm_key (md5sum_filepath f1), Blob (md5hex E c))],
           [EWrite (norm_key (md5sum_filepath f1)); ERead (norm_key (uri f1));
            EOpen (norm_key (uri f1))].
    simpl. auto.
Qed.



Lemma em_init_pure (E : Env) (f : DataFile) (s : St) : snd (em_init E f s) = s.
Proof.
  unfold em_init, bind; simpl. rewrite is_local_file_pure.
  destruct (is_local_protocol (uri f)); simpl; [|reflexivity].
  destruct (fs_lookup (st_fs s) (norm_key (uri f))); simpl; [|reflexivity].
  destruct (md5sum f) as [[|]|]; reflexivity.
Qed.

Lemma em_enter_quiet (f : DataFile) (s : St) (ce : content * extractor) (s' : St) :
  em_enter f s = (Ok ce, s') ->
  exists ev, s' = mkSt (st_fs s) (ev ++ st_trace s) /\ forallb quiet_event ev = true.
Proof.
  unfold em_enter. intros H.
  destruct (bind_inv _ _ _ _ _ H) as (c & s1 & H1 & H2). clear H.
  unfold open_file in H1.
  destruct (fs_lookup (st_fs s) (norm_key (uri f))) as [c0|]; [|discriminate].
  injection H1 as <- <-.
  destruct (bind_inv _ _ _ _ _ H2) as (e & s2 & H3 & H4). clear H2.
  unfold ret in H4. injection H4 as _ <-.
  unfold get_extractor in H3. destruct (find_by_extension EXTRACTORS (uri f)).
  - unfold ret in H3. injection H3 as _ <-. exists [EOpen (norm_key (uri f))]. auto.
  - destruct (find_by_magic_quiet EXTRACTORS (uri f) c0
                (mkSt (st_fs s) (EOpen (norm_key (uri f)) :: st_trace s))) as (e' & ev & H5 & H6).
    rewrite H5 in H3. injection H3 as _ <-.
    exists (ev ++ [EOpen (norm_key (uri f))])%list. simpl. rewrite <- app_assoc.
    split; [reflexivity|]. rewrite forallb_app, H6. reflexivity.
Qed.


(** the extraction block of [DownloadManager.extract] *)
Lemma extraction_block_ok (E : Env) (f : DataFile) (dir mp : string) (s : St) (s' : St) :
  (em <- em_init E f ;;
   ce <- em_enter em ;;
   extracted_files <- em_extract (fst ce) (snd ce) dir ;;
   mkdir_parents (pathlib_parent mp) ;;;
   os_write mp (Blob (json_dumps extracted_files))) s = (Ok tt, s') ->
  exists W ev, st_fs s' = (W ++ st_fs s)%list /\ st_trace s' = (ev ++ st_trace s)%list
    /\ count_net ev = 0 /\ count_extract ev = 1
    /\ (forall rest, writes_after_extract (ev ++ rest)%list = Some (map fst W))
    /\ fs_lookup (st_fs s') (norm_key mp) <> None.
Proof.
  intros H.
  destruct (bind_inv _ _ _ _ _ H) as (em & s1 & H1 & H2). clear H.
  assert (Hs1 : s1 = s) by (pose proof (em_init_pure E f s) as Hp; rewrite H1 in Hp; exact Hp).
  subst s1.
  destruct (bind_inv _ _ _ _ _ H2) as (ce & s2 & H3 & H4). clear H2.
  destruct (em_enter_quiet em s ce s2 H3) as (ev1 & -> & Hq).
  destruct (bind_inv _ _ _ _ _ H4) as (xs & s3 & H5 & H6). clear H4.
  destruct (em_extract_ok _ _ _ _ _ _ H5) as (W & Hx).
  destruct (bind_inv _ _ _ _ _ H6) as (u & s4 & H7 & H8). clear H6.
  destruct (mkdir_parents_op (pathlib_parent mp) s3) as [Hd _]. rewrite H7 in Hd. simpl in Hd.
  pose proof (os_write_spec mp (Blob (json_dumps xs)) s4) as Hw. rewrite H8 in Hw.
  pose proof (ext_step_trans _ _ _ _ _ (ext_step_trans _ _ _ _ _ Hx (dirs_ext_step _ _ Hd)) Hw)
    as (Hf & ev & Ht & He & Hws).
  cbn [st_fs st_trace] in Hf, Ht.
  exists ((norm_key mp, Blob (json_dumps xs)) :: W)%list,
         (ev ++ EExtract (norm_key dir) :: ev1)%list.
  destruct (quiet_counts ev1 Hq) as [Hq1 Hq2].
  destruct (ext_counts ev He) as [He1 He2].
  split; [rewrite Hf; reflexivity|].
  split; [rewrite Ht, <- app_assoc; reflexivity|].
  split; [rewrite count_net_app; simpl; lia|].
  split; [rewrite count_extract_app; simpl; lia|].
  split; [intros rest; rewrite <- app_assoc; simpl;
          rewrite (writes_after_extract_ext ev (norm_key dir) (ev1 ++ rest)%list He), Hws;
          reflexivity|].
  rewrite Hf. simpl. rewrite key_eqb_refl. discriminate.
Qed.

Lemma is_extractable_same (p : string) (s s' : St) :
  fs_lookup (st_fs s) (norm_key p) = fs_lookup (st_fs s') (norm_key p) ->
  exists ev, is_extractable_filepath p s
             = (fst (is_extractable_filepath p s'), mkSt (st_fs s) (ev ++ st_trace s))
    /\ forallb quiet_event ev = true.
Proof.
  intros Heq.
  destruct (is_extractable_filepath_quiet p s) as (ev & H1 & H2).
  destruct (is_extractable_filepath_quiet p s') as (ev' & H1' & _).
  exists ev. rewrite H1, H1', Heq. auto.
Qed.

Lemma extract_result (E : Env) (cfg : Config) (f2 : DataFile) (sB : St) (r1 : DataFile) (s1 : St) :
  extract_policy cfg = Missing ->
  extract E cfg (UFile f2) sB = (Ok r1, s1) ->
  (exists W ev, st_fs s1 = (W ++ st_fs sB)%list /\ st_trace s1 = (ev ++ st_trace sB)%list
     /\ count_net ev = 0
     /\ ((W = [] /\ count_extract ev = 0)
         \/ (count_extract ev = 1
             /\ forall rest, writes_after_extract (ev ++ rest)%list = Some (map fst W))))
  /\ (forall s, st_fs s = st_fs s1 ->
        fs_lookup (st_fs s1) (norm_key (uri f2)) = fs_lookup (st_fs sB) (norm_key (uri f2)) ->
        exists ev, extract E cfg (UFile f2) s = (Ok r1, mkSt (st_fs s) (ev ++ st_trace s))
          /\ count_net ev = 0 /\ count_extract ev = 0).
Proof.
  intros Hpol H.
  assert (Hx : forall s, extract E cfg (UFile f2) s
     = bind (is_extractable_filepath (uri f2)) (fun ok =>
       if negb ok then ret f2 else
       let '(extract_dir, metadata_filepath) := extract_paths f2 in
       ex <- is_file metadata_filepath ;;
       (if policy_eqb (extract_policy cfg) Always || negb ex
        then em <- em_init E f2 ;;
             ce <- em_enter em ;;
             extracted_files <- em_extract (fst ce) (snd ce) extract_dir ;;
             mkdir_parents (pathlib_parent metadata_filepath) ;;;
             os_write metadata_filepath (Blob (json_dumps extracted_files))
        else ret tt) ;;;
       ret (copy_with_uri_md5sum f2 metadata_filepath None)) s).
  { intros s. unfold extract, bind at 1. simpl. rewrite Hpol. reflexivity. }
  rewrite Hx in H. rewrite Hpol in H. cbn [policy_eqb orb] in H.
  destruct (bind_inv _ _ _ _ _ H) as (ok & sX & H1 & H2). clear H.
  destruct (is_extractable_filepath_quiet (uri f2) sB) as (ev0 & H3 & Hq0).
  destruct (quiet_counts ev0 Hq0) as [Hq1 Hq2].
  rewrite H3 in H1. injection H1 as Hok <-.
  destruct ok.
  - destruct (extract_paths f2) as [dir mp] eqn:Hep. cbv beta iota in H2.
    destruct (bind_inv _ _ _ _ _ H2) as (ex & sY & H4 & H5). clear H2.
    unfold is_file in H4. simpl in H4. injection H4 as Hex <-.
    destruct (fs_lookup (st_fs sB) (norm_key mp)) as [cm|] eqn:Hm.
    + subst ex. simpl in H5. unfold ret in H5. injection H5 as <- <-.
      split.
      * exists [], ev0. simpl. intuition.
      * intros s Hs Hu. simpl in Hs, Hu.
        destruct (is_extractable_same (uri f2) s sB ltac:(rewrite Hs; exact Hu)) as (ev & H6 & H7).
        destruct (quiet_counts ev H7) as [H8 H9].
        exists ev. rewrite Hx, Hpol. cbn [policy_eqb orb].
        unfold bind at 1. rewrite H6, H3. simpl fst. rewrite Hok. cbv beta iota.
        unfold bind, is_file, ret. simpl. rewrite Hs, Hm. simpl. auto.
    + subst ex. cbn [negb] in H5.
      destruct (bind_inv _ _ _ _ _ H5) as (u & sZ & H6 & H7). clear H5.
      unfold ret in H7. injection H7 as <- <-.
      destruct u.
      destruct (extraction_block_ok E f2 dir mp _ sZ H6) as (W & ev & Hf & Ht & Hn & He & Hw & Hmp).
      simpl in Hf, Ht.
      split.
      * exists W, (ev ++ ev0)%list. rewrite Hf, Ht, app_assoc.
        split; [reflexivity|]. split; [reflexivity|].
        rewrite count_net_app, count_extract_app. split; [lia|].
        right. split; [lia|]. intros rest. rewrite <- app_assoc. apply Hw.
      * intros s Hs Hu.
        destruct (is_extractable_same (uri f2) s sB ltac:(rewrite Hs; exact Hu)) as (ev' & H8 & H9).
        destruct (quiet_counts ev' H9) as [H10 H11].
        exists ev'. rewrite Hx, Hpol. cbn [policy_eqb orb].
        unfold bind at 1. rewrite H8, H3. simpl fst. rewrite Hok. cbv beta iota.
        unfold bind, is_file, ret. simpl. rewrite Hs.
        destruct (fs_lookup (st_fs sZ) (norm_key mp)); [|congruence]. simpl. auto.
  - simpl in H2. unfold ret in H2. injection H2 as <- <-.
    split.
    + exists [], ev0. simpl. intuition.
    + intros s Hs Hu. simpl in Hs, Hu.
      destruct (is_extractable_same (uri f2) s sB ltac:(rewrite Hs; exact Hu)) as (ev & H6 & H7).
      destruct (quiet_counts ev H7) as [H8 H9].
      exists ev. rewrite Hx. unfold bind at 1. rewrite H6, H3. simpl fst. rewrite Hok. simpl. auto.
Qed.

(** C5, counterexample: the remote archive [sample_archive_item] holds a
    member [../../<id>.md5sum] that lands on the checksum file kept next
    to the download. The first run succeeds with one transfer and one
    extraction. The second run, from the state the first one left, finds
    the checksum file overwritten and raises [ValueError] instead of
    returning the first run's path. *)
Lemma pipeline_rerun_fails :
  let E := steady_env memo_clobbering_tar in
  let s1 := snd (worker E sample_cfg sample_archive_item (mkSt [] [])) in
  fst (worker E sample_cfg sample_archive_item (mkSt [] []))
    = Ok (mkDataFile
            "/data/downloads/sample/extracted/900150983cd24fb0d6963f7d28e17f72/extracted_files.json"
            None "sample")
  /\ count_net (st_trace s1) = 1 /\ count_extract (st_trace s1) = 1
  /\ fst (worker E sample_cfg sample_archive_item s1)
     = Err (ValueError (md5_mismatch_msg
              "/data/downloads/sample/900150983cd24fb0d6963f7d28e17f72.tar"
              "0cc175b9c0f1b6a831c399e269772661" "hello")).
Proof. vm_compute. repeat split. Qed.

(** C5 (amended): under download and extract policy [missing], one run of
    the pipeline ([_worker]) from [s0] performs at most one network
    transfer and at most one extraction. Provided the extraction of that
    run writes neither the downloaded file nor its [.md5sum] file, a
    second run from the resulting state [s1] returns the same file [r1]
    and performs no transfer and no extraction.  Archive members are
    regular files and directories (links are not modelled). *)
Theorem pipeline_idempotent (E : Env) (cfg : Config) (u : UriType) (f : DataFile)
    (s0 s1 : St) (r1 : DataFile) :
  download_policy cfg = Missing ->
  extract_policy cfg = Missing ->
  fst (parse E u s0) = Ok f ->
  worker E cfg u s0 = (Ok r1, s1) ->
  match writes_after_extract (run_events s0 s1) with
  | Some ks => forallb (fun k => negb (key_eqb k (norm_key (uri (download_target E cfg f))))
                                 && negb (key_eqb k (norm_key (md5sum_filepath (download_target E cfg f)))))
                       ks
  | None => true
  end = true ->
  count_net (st_trace s1) <= S (count_net (st_trace s0))
  /\ count_extract (st_trace s1) <= S (count_extract (st_trace s0))
  /\ exists s2, worker E cfg u s1 = (Ok r1, s2)
       /\ count_net (st_trace s2) = count_net (st_trace s1)
       /\ count_extract (st_trace s2) = count_extract (st_trace s1).
Proof.
  intros Hd He Hp H Hw.
  unfold worker in H.
  destruct (bind_inv _ _ _ _ _ H) as (f1 & sA & H1 & H2). clear H.
  destruct (bind_inv _ _ _ _ _ H2) as (f2 & sB & H3 & H4). clear H2.
  destruct (download_result E cfg u f s0 f1 sA Hd Hp H1)
    as (Hf1 & HuA & W1 & ev1 & Hfs1 & Htr1 & Hn1 & Hx1).
  destruct (compute_result E cfg f1 sA f2 sB H3)
    as (Hloc & Hu2 & (t & Hmt & Hck) & W2 & ev2 & Hfs2 & Htr2 & Hn2 & Hx2).
  destruct (extract_result E cfg f2 sB r1 s1 He H4)
    as ((W3 & ev3 & Hfs3 & Htr3 & Hn3 & Hx3) & Hagain).
  rewrite <- Hf1 in Hw.
  assert (Hrun : run_events s0 s1 = (ev3 ++ ev2 ++ ev1)%list).
  { apply run_events_app. rewrite Htr3, Htr2, Htr1. rewrite !app_assoc. reflexivity. }
  rewrite Hrun in Hw.
  assert (Hav : forall k, In k (map fst W3) ->
                  k <> norm_key (uri f1) /\ k <> norm_key (md5sum_filepath f1)).
  { destruct Hx3 as [[-> _] | [_ Hwa]]; [intros k []|].
    rewrite (Hwa (ev2 ++ ev1)%list) in Hw. rewrite forallb_forall in Hw.
    intros k Hk. specialize (Hw k Hk). apply andb_prop in Hw. destruct Hw as [Ha Hb].
    split; intros ->; [rewrite key_eqb_refl in Ha | rewrite key_eqb_refl in Hb]; discriminate. }
  assert (Hku : fs_lookup (st_fs s1) (norm_key (uri f1)) = fs_lookup (st_fs sB) (norm_key (uri f1))).
  { rewrite Hfs3. apply lookup_app_notin. intros Hi. exact (proj1 (Hav _ Hi) eq_refl). }
  assert (Hkm : fs_lookup (st_fs s1) (norm_key (md5sum_filepath f1))
                = fs_lookup (st_fs sB) (norm_key (md5sum_filepath f1))).
  { rewrite Hfs3. apply lookup_app_notin. intros Hi. exact (proj2 (Hav _ Hi) eq_refl). }
  assert (HuB : fs_lookup (st_fs s1) (norm_key (uri f1)) <> None).
  { rewrite Hku, Hfs2. apply lookup_app_some. exact HuA. }
  split.
  { rewrite Htr3, Htr2, Htr1, !count_net_app. lia. }
  split.
  { rewrite Htr3, Htr2, Htr1, !count_extract_app.
    destruct Hx3 as [[_ H0] | [H0 _]]; lia. }
  unfold worker.
  rewrite (bind_ok _ _ s1 f1 s1 (download_again E cfg u s0 f1 sA s1 Hd H1 HuB)).
  rewrite <- Hkm in Hmt.
  rewrite (bind_ok _ _ s1 f2 _
             (eq_trans (compute_md5sum_hit E cfg f1 s1 t Hloc HuB Hmt)
                       (f_equal (fun r => (r, _)) Hck))).
  destruct (Hagain (mkSt (st_fs s1) (ERead (norm_key (md5sum_filepath f1))
                                     :: EOpen (norm_key (md5sum_filepath f1)) :: st_trace s1))
              eq_refl ltac:(rewrite Hu2; exact Hku))
    as (ev & Hex & Hn & Hx).
  rewrite Hex. eexists. split; [reflexivity|]. simpl.
  rewrite count_net_app, count_extract_app, Hn, Hx. simpl. auto.
Qed.

Lemma pipeline_idempotent_witness :
  let E := steady_env plain_tar in
  let s1 := snd (worker E sample_cfg sample_archive_item (mkSt [] [])) in
  worker E sample_cfg sample_archive_item (mkSt [] [])
    = (Ok (mkDataFile
             "/data/downloads/sample/extracted/900150983cd24fb0d6963f7d28e17f72/extracted_files.json"
             None "sample"), s1)
  /\ count_net (st_trace s1) <= S (count_net (st_trace (mkSt [] [])))
  /\ count_extract (st_trace s1) <= S (count_extract (st_trace (mkSt [] [])))
  /\ exists s2, worker E sample_cfg sample_archive_item s1
                = (Ok (mkDataFile
                         "/data/downloads/sample/extracted/900150983cd24fb0d6963f7d28e17f72/extracted_files.json"
                         None "sample"), s2)
       /\ count_net (st_trace s2) = count_net (st_trace s1)
       /\ count_extract (st_trace s2) = count_extract (st_trace s1).
Proof.
  intros E s1.
  assert (Hw : worker E sample_cfg sample_archive_item (mkSt [] [])
               = (Ok (mkDataFile
                        "/data/downloads/sample/extracted/900150983cd24fb0d6963f7d28e17f72/extracted_files.json"
                        None "sample"), s1)) by (vm_compute; reflexivity).
  split; [exact Hw|].
  apply (pipeline_idempotent E sample_cfg sample_archive_item
           (mkDataFile "https://h/sample.tar" (Some "0cc175b9c0f1b6a831c399e269772661") "sample")
           (mkSt [] []) s1);
    [reflexivity | reflexivity | reflexivity | exact Hw | vm_compute; reflexivity].
Defined.

End Pipeline.


(* ================================================================= *)
(** * Further properties of [utils/extract_manager.py],
      [utils/download_manager.py] and [remove_suffix] *)

Module AtlasExtras.
Import Atlas Facts Keys Traversal Pipeline Samples.

Lemma download_prepare_eq (E : Env) (cfg : Config) (u : UriType) (s : St) :
  download_prepare E cfg u s
  = (match fst (parse E u s) with
     | Err e => Err e
     | Ok f =>
         if is_local_protocol (uri f)
         then match fs_lookup (st_fs s) (norm_key (uri f)) with
              | Some _ => Ok (inl f)
              | None => Err (FileNotFoundError (uri f))
              end
         else if policy_eqb (download_policy cfg) Never
         then Err (ValueError ("Download policy is set to 'never', and " ++ uri f
                               ++ " is not a local file."))
         else let p := remote_filepath E f (download_dir cfg) in
              if match fs_lookup (st_fs s) (norm_key p) with Some _ => true | None => false end
                 && policy_eqb (download_policy cfg) Missing
              then Ok (inl (copy_with_uri f p))
              else Ok (inr (f, p))
     end, s).
Proof.
  unfold download_prepare, bind at 1. rewrite (parse_pure E u s).
  destruct (fst (parse E u s)) as [f|e]; cbn [fst]; [|reflexivity].
  unfold bind at 1. rewrite is_local_file_pure.
  destruct (is_local_protocol (uri f)) eqn:Hl.
  - destruct (fs_lookup (st_fs s) (norm_key (uri f))); reflexivity.
  - cbv beta iota. destruct (policy_eqb (download_policy cfg) Never); [reflexivity|].
    unfold build_local_filepath, bind.
    rewrite is_local_file_pure, Hl. cbv beta iota.
    unfold is_file, ret. simpl.
    destruct (fs_lookup (st_fs s) (norm_key (remote_filepath E f (download_dir cfg))));
      destruct (policy_eqb (download_policy cfg) Missing); reflexivity.
Qed.

(** X5: a successful [download] returns a file that exists; it opens at
    most one network transfer and extracts nothing, and under the policy
    [Always] a remote file is transferred exactly once. *)
Theorem download_result_exists (E : Env) (cfg : Config) (u : UriType) (s : St)
    (f1 : DataFile) (s1 : St) :
  download E cfg u s = (Ok f1, s1) ->
  fs_lookup (st_fs s1) (norm_key (uri f1)) <> None
  /\ exists ev, st_trace s1 = (ev ++ st_trace s)%list
       /\ count_net ev <= 1 /\ count_extract ev = 0
       /\ (download_policy cfg = Always ->
           forall f, fst (parse E u s) = Ok f -> is_local_protocol (uri f) = false ->
           count_net ev = 1).
Proof.
  intros H. unfold download, bind at 1 in H. rewrite download_prepare_eq in H.
  destruct (fst (parse E u s)) as [f|e] eqn:Hp; [|discriminate].
  destruct (is_local_protocol (uri f)) eqn:Hl.
  - destruct (fs_lookup (st_fs s) (norm_key (uri f))) eqn:Hx; [|discriminate].
    unfold ret in H. injection H as <- <-.
    split; [rewrite Hx; discriminate|].
    exists []. simpl. split; [reflexivity|]. split; [lia|]. split; [reflexivity|].
    intros _ f' Hf'. injection Hf' as <-. congruence.
  - destruct (policy_eqb (download_policy cfg) Never); [discriminate|].
    cbv zeta in H.
    set (p := remote_filepath E f (download_dir cfg)) in *.
    destruct (fs_lookup (st_fs s) (norm_key p)) eqn:Hx;
      destruct (policy_eqb (download_policy cfg) Missing) eqn:Hm; cbn [andb] in H.
    + unfold ret in H. injection H as <- <-.
      split; [simpl; rewrite Hx; discriminate|].
      exists []. simpl. split; [reflexivity|]. split; [lia|]. split; [reflexivity|].
      intros Ha. rewrite Ha in Hm. discriminate.
    + unfold bind, transfer_open, net_fetch, bind in H. simpl in H.
      destruct (net E (count_net (st_trace s)) (uri f)) as [c0| |c0];
        simpl in H; try discriminate.
      unfold bind, write_file, ret in H. simpl in H. injection H as <- <-.
      split; [simpl; rewrite key_eqb_refl; discriminate|].
      exists [EWrite (norm_key p); EWrite (norm_key p); ENetOpen (uri f)].
      simpl. auto.
    + unfold bind, transfer_open, net_fetch, bind in H. simpl in H.
      destruct (net E (count_net (st_trace s)) (uri f)) as [c0| |c0];
        simpl in H; try discriminate.
      unfold bind, write_file, ret in H. simpl in H. injection H as <- <-.
      split; [simpl; rewrite key_eqb_refl; discriminate|].
      exists [EWrite (norm_key p); EWrite (norm_key p); ENetOpen (uri f)].
      simpl. auto.
    + unfold bind, transfer_open, net_fetch, bind in H. simpl in H.
      destruct (net E (count_net (st_trace s)) (uri f)) as [c0| |c0];
        simpl in H; try discriminate.
      unfold bind, write_file, ret in H. simpl in H. injection H as <- <-.
      split; [simpl; rewrite key_eqb_refl; discriminate|].
      exists [EWrite (norm_key p); EWrite (norm_key p); ENetOpen (uri f)].
      simpl. auto.
Qed.

(** X6: under the download policy [Never], [download] changes neither the
    file system nor the trace, whatever its outcome. *)
Theorem download_never_no_effect (E : Env) (cfg : Config) (u : UriType) (s : St)
    (r : res DataFile) (s1 : St) :
  download_policy cfg = Never ->
  download E cfg u s = (r, s1) -> s1 = s.
Proof.
  intros Hn H. unfold download, bind at 1 in H. rewrite download_prepare_eq, Hn in H.
  cbn [policy_eqb] in H.
  destruct (fst (parse E u s)) as [f|e]; [|injection H as _ <-; reflexivity].
  destruct (is_local_protocol (uri f)).
  - destruct (fs_lookup (st_fs s) (norm_key (uri f))); unfold ret in H; injection H as _ <-;
      reflexivity.
  - injection H as _ <-. reflexivity.
Qed.

(** X7: under the policy [Missing], a transfer that breaks off leaves the
    partial file in the cache, and the next [download] returns that
    partial file without any transfer. *)
Theorem broken_transfer_then_cached (E : Env) (cfg : Config) (u : UriType) (s : St)
    (f : DataFile) (partial : content) :
  download_policy cfg = Missing ->
  fst (parse E u s) = Ok f ->
  is_local_protocol (uri f) = false ->
  fs_lookup (st_fs s) (norm_key (remote_filepath E f (download_dir cfg))) = None ->
  net E (count_net (st_trace s)) (uri f) = NetBroken partial ->
  exists s1, download E cfg u s = (Err (OSError (uri f)), s1)
    /\ fs_lookup (st_fs s1) (norm_key (remote_filepath E f (download_dir cfg))) = Some partial
    /\ download E cfg u s1
       = (Ok (copy_with_uri f (remote_filepath E f (download_dir cfg))), s1).
Proof.
  intros Hm Hp Hl Hx Hn.
  set (p := remote_filepath E f (download_dir cfg)) in *.
  assert (H1 : download E cfg u s
               = (Err (OSError (uri f)),
                  mkSt ((norm_key p, partial) :: (norm_key p, Blob "") :: st_fs s)
                       (EWrite (norm_key p) :: EWrite (norm_key p) :: ENetOpen (uri f)
                        :: st_trace s))).
  { unfold download, bind at 1. rewrite download_prepare_eq, Hp, Hl, Hm. cbn [policy_eqb].
    cbv zeta. fold p. rewrite Hx. cbn [andb].
    unfold bind, transfer_open, net_fetch, bind. simpl. rewrite Hn. reflexivity. }
  eexists. split; [exact H1|]. split; [simpl; rewrite key_eqb_refl; reflexivity|].
  unfold download, bind at 1. rewrite download_prepare_eq.
  rewrite (parse_indep E u _ s), Hp, Hl, Hm. cbn [policy_eqb]. cbv zeta. fold p.
  simpl. rewrite key_eqb_refl. reflexivity.
Qed.

Lemma broken_transfer_then_cached_witness :
  let E := flaky_env in
  let u := UStr "https://h/sample.txt" in
  let f := new_datafile "https://h/sample.txt" None "" in
  let p := remote_filepath E f (download_dir sample_cfg) in
  exists s1, download E sample_cfg u (mkSt [] []) = (Err (OSError (uri f)), s1)
    /\ fs_lookup (st_fs s1) (norm_key p) = Some (Blob "hel")
    /\ download E sample_cfg u s1 = (Ok (copy_with_uri f p), s1).
Proof.
  intros E u f p.
  apply (broken_transfer_then_cached E sample_cfg u (mkSt [] []) f (Blob "hel"));
    [reflexivity | reflexivity | reflexivity | reflexivity | reflexivity].
Defined.

Lemma md5sum_check_digest (cfg : Config) (f f2 : DataFile) (t : string) :
  md5sum_check cfg f t = Ok f2 -> md5sum f2 = Some t.
Proof.
  unfold md5sum_check. destruct (md5sum f);
    [destruct (validate_checksums cfg && _); [discriminate|]|];
    intros H; injection H as <-; reflexivity.
Qed.

(** X12: [compute_md5sum] memoises the digest in [<stem>.md5sum]: after it
    succeeded on one file, a second local file whose memo path is the same
    is checked against the first file's digest. *)
Theorem compute_md5sum_shared_memo (E : Env) (cfg : Config) (f f' g : DataFile)
    (s s1 : St) :
  compute_md5sum E cfg (UFile f) s = (Ok f', s1) ->
  is_local_protocol (uri g) = true ->
  fs_lookup (st_fs s1) (norm_key (uri g)) <> None ->
  norm_key (md5sum_filepath g) = norm_key (md5sum_filepath f) ->
  exists t, md5sum f' = Some t
    /\ fst (compute_md5sum E cfg (UFile g) s1) = md5sum_check cfg g t.
Proof.
  intros H Hl Hg Hk.
  destruct (compute_result E cfg f s f' s1 H) as (_ & _ & (t & Ht & Hck) & _).
  exists t. split; [exact (md5sum_check_digest cfg f f' t Hck)|].
  rewrite <- Hk in Ht.
  rewrite (compute_md5sum_hit E cfg g s1 t Hl Hg Ht). reflexivity.
Qed.

Lemma compute_md5sum_shared_memo_witness :
  let f := new_datafile "/d/data.tar" None "" in
  let g := new_datafile "/d/dart.tar" None "" in
  let s := mkSt [(norm_key "/d/data.tar", Blob "hello"); (norm_key "/d/dart.tar", Blob "")] [] in
  let s1 := snd (compute_md5sum sample_env sample_cfg (UFile f) s) in
  let f' := new_datafile "/d/data.tar" (Some "5d41402abc4b2a76b9719d911017c592") "" in
  exists t, md5sum f' = Some t
    /\ fst (compute_md5sum sample_env sample_cfg (UFile g) s1) = md5sum_check sample_cfg g t.
Proof.
  intros f g s s1 f'.
  apply (compute_md5sum_shared_memo sample_env sample_cfg f f' g s s1);
    [vm_compute; reflexivity | reflexivity | vm_compute; discriminate | vm_compute; reflexivity].
Defined.

Lemma substring_prefix_app (a b : string) : substring 0 (String.length a) (a ++ b) = a.
Proof. induction a as [|x a IH]; simpl; [destruct b; reflexivity|]. rewrite IH. reflexivity. Qed.

Lemma substring_full (b : string) : substring 0 (String.length b) b = b.
Proof. induction b as [|x b IH]; simpl; [reflexivity|]. rewrite IH. reflexivity. Qed.

Lemma substring_suffix_app (a b : string) :
  substring (String.length a) (String.length b) (a ++ b) = b.
Proof. induction a as [|x a IH]; simpl; [apply substring_full|]. exact IH. Qed.

Lemma substring_split (s : string) (n : nat) :
  n <= String.length s ->
  substring 0 n s ++ substring n (String.length s - n) s = s.
Proof.
  revert n; induction s as [|x s IH]; intros n Hn; simpl in *.
  - destruct n; [reflexivity | lia].
  - destruct n as [|n]; simpl.
    + rewrite substring_full. reflexivity.
    + rewrite IH by lia. reflexivity.
Qed.

Lemma string_length_app (a b : string) :
  String.length (a ++ b) = String.length a + String.length b.
Proof. induction a as [|x a IH]; simpl; [reflexivity|]. rewrite IH. reflexivity. Qed.

Lemma remove_suffix_nonempty (s suf : string) : suf <> "" ->
  remove_suffix s suf
  = if ends_with suf s then substring 0 (String.length s - String.length suf) s else s.
Proof. intros H. unfold remove_suffix. destruct suf; [congruence | reflexivity]. Qed.

(** X13: [remove_suffix] with a non-empty suffix removes an appended
    suffix exactly, and for a string ending with the suffix appending it
    back gives the string. *)
Theorem remove_suffix_roundtrip (s suf : string) (Hsuf : suf <> "") :
  remove_suffix (s ++ suf) suf = s
  /\ (ends_with suf s = true -> remove_suffix s suf ++ suf = s).
Proof.
  split.
  - rewrite (remove_suffix_nonempty _ _ Hsuf). unfold ends_with. rewrite string_length_app.
    replace (String.length s + String.length suf - String.length suf) with (String.length s)
      by lia.
    rewrite substring_suffix_app, String.eqb_refl, andb_true_r.
    replace (Nat.leb (String.length suf) (String.length s + String.length suf)) with true
      by (symmetry; apply Nat.leb_le; lia).
    apply substring_prefix_app.
  - intros H. rewrite (remove_suffix_nonempty _ _ Hsuf), H.
    unfold ends_with in H. apply andb_prop in H as [Hle Heq].
    apply Nat.leb_le in Hle. apply String.eqb_eq in Heq.
    rewrite <- Heq at 2.
    replace (String.length suf) with (String.length s - (String.length s - String.length suf))
      at 3 by lia.
    apply substring_split. lia.
Qed.

Lemma download_result_exists_witness :
  let u := UStr "https://h/sample.txt" in
  let s := mkSt [] [] in
  let s1 := snd (download sample_env sample_cfg u s) in
  let f1 := new_datafile "/data/downloads/sample/900150983cd24fb0d6963f7d28e17f72.txt"
              None "sample.txt" in
  fs_lookup (st_fs s1) (norm_key (uri f1)) <> None
  /\ exists ev, st_trace s1 = (ev ++ st_trace s)%list
       /\ count_net ev <= 1 /\ count_extract ev = 0
       /\ (download_policy sample_cfg = Always ->
           forall f, fst (parse sample_env u s) = Ok f -> is_local_protocol (uri f) = false ->
           count_net ev = 1).
Proof.
  intros u s s1 f1.
  apply (download_result_exists sample_env sample_cfg u s f1 s1).
  vm_compute; reflexivity.
Defined.

Lemma download_never_no_effect_witness :
  let cfg := mkConfig Never Missing true "/data" None in
  let s := mkSt [] [] in
  snd (download sample_env cfg (UStr "https://h/sample.txt") s) = s.
Proof.
  intros cfg s.
  apply (download_never_no_effect sample_env cfg (UStr "https://h/sample.txt") s
           (fst (download sample_env cfg (UStr "https://h/sample.txt") s)));
    [reflexivity | apply surjective_pairing].
Defined.

Lemma remove_suffix_roundtrip_witness :
  remove_suffix ("/d/x" ++ ".tar.gz") ".tar.gz" = "/d/x"
  /\ (ends_with ".tar.gz" "/d/x" = true -> remove_suffix "/d/x" ".tar.gz" ++ ".tar.gz" = "/d/x").
Proof.
  apply (remove_suffix_roundtrip "/d/x" ".tar.gz"). discriminate.
Defined.

End AtlasExtras.


(* ================================================================= *)
(** * Further properties of [st_visium_datasets/utils/download.py] *)

Module VisiumExtras.
Import Keys Visium Samples Pipeline Facts.

(** X9: a successful [_validate_md5sum] leaves the file unchanged; called
    again, it gives the same answer from the [.md5sum] memo and writes
    nothing. *)
Theorem validate_md5sum_stable (E : Env) (file : DataFile) (p : string) (s : St)
    (b : bool) (s1 : St) :
  (forall c, all_hex (md5hex E c) = true) ->
  _validate_md5sum E file p s = (Ok b, s1) ->
  fs_lookup (st_fs s1) (norm_key p) = fs_lookup (st_fs s) (norm_key p)
  /\ _validate_md5sum E file p s1
     = (Ok b, mkSt (st_fs s1) (ERead (norm_key (md5sum_path_of p))
                               :: EOpen (norm_key (md5sum_path_of p)) :: st_trace s1)).
Proof.
  intros Hhex H.
  set (km := norm_key (md5sum_path_of p)) in *.
  unfold _validate_md5sum, bind, is_file in H |- *. simpl in H |- *.
  destruct (fs_lookup (st_fs s) (norm_key p)) as [cp|] eqn:Hp; [|discriminate].
  simpl in H. fold km in H |- *.
  destruct (fs_lookup (st_fs s) km) as [cm|] eqn:Hm; simpl in H.
  - unfold read_text, read_file, bind in H. fold km in H. rewrite Hm in H. simpl in H.
    destruct cm as [t| |]; try discriminate.
    unfold ret in H. simpl in H. injection H as <- <-. simpl.
    split; [exact Hp|]. rewrite Hp. simpl.
    fold km. rewrite Hm. simpl.
    unfold read_text, read_file, bind, ret. simpl. fold km. rewrite Hm. reflexivity.
  - unfold read_file, bind in H. rewrite Hp in H. simpl in H.
    unfold write_file, ret in H. simpl in H. fold km in H. injection H as <- <-. simpl.
    assert (Hne : key_eqb (norm_key p) km = false).
    { destruct (key_eqb (norm_key p) km) eqn:Hk; [|reflexivity].
      apply key_eqb_eq in Hk. rewrite Hk in Hp. congruence. }
    rewrite Hne. split; [congruence|]. rewrite Hp. simpl.
    fold km. rewrite key_eqb_refl. simpl.
    unfold read_text, read_file, bind, ret. simpl. fold km. rewrite key_eqb_refl. simpl.
    rewrite (strip_ws_hex _ (Hhex cp)). reflexivity.
Qed.

Lemma validate_md5sum_result (E : Env) (file : DataFile) (p : string) (s : St)
    (b : bool) (s1 : St) :
  (forall c, all_hex (md5hex E c) = true) ->
  _validate_md5sum E file p s = (Ok b, s1) ->
  fs_lookup (st_fs s) (norm_key p) <> None
  /\ exists t, fs_lookup (st_fs s1) (norm_key (md5sum_path_of p)) = Some (Blob t)
       /\ b = String.eqb (strip_ws t) (md5sum file)
       /\ (st_fs s1 = st_fs s \/ st_fs s1 = (norm_key (md5sum_path_of p), Blob t) :: st_fs s)
       /\ count_net (st_trace s1) = count_net (st_trace s).
Proof.
  intros Hhex H.
  set (km := norm_key (md5sum_path_of p)) in *.
  unfold _validate_md5sum, bind, is_file in H. simpl in H.
  destruct (fs_lookup (st_fs s) (norm_key p)) as [cp|] eqn:Hp; [|discriminate].
  simpl in H. fold km in H.
  split; [discriminate|].
  destruct (fs_lookup (st_fs s) km) as [cm|] eqn:Hm; simpl in H.
  - unfold read_text, read_file, bind in H. fold km in H. rewrite Hm in H. simpl in H.
    destruct cm as [t| |]; try discriminate.
    unfold ret in H. simpl in H. injection H as <- <-. simpl.
    exists t. auto.
  - unfold read_file, bind in H. rewrite Hp in H. simpl in H.
    unfold write_file, ret in H. simpl in H. fold km in H. injection H as <- <-. simpl.
    exists (md5hex E cp). rewrite key_eqb_refl, (strip_ws_hex _ (Hhex cp)). auto.
Qed.

Lemma lookup_cons_some (k k' : key) (c : content) (fs : list (key * content)) :
  fs_lookup fs k <> None -> fs_lookup ((k', c) :: fs) k <> None.
Proof. simpl. destruct (key_eqb k k'); [discriminate | auto]. Qed.

(** X10: when [_download_file] returns a path, it is the save path, the
    file exists and its [.md5sum] memo holds the expected md5sum. *)
Theorem download_file_some (E : Env) (dir : string) (file : DataFile) (force : bool)
    (s : St) (p : string) (s1 : St) :
  (forall c, all_hex (md5hex E c) = true) ->
  _download_file E dir file force s = (Ok (Some p), s1) ->
  p = save_path_of dir file
  /\ fs_lookup (st_fs s1) (norm_key p) <> None
  /\ exists t, fs_lookup (st_fs s1) (norm_key (md5sum_path_of p)) = Some (Blob t)
       /\ strip_ws t = md5sum file.
Proof.
  intros Hhex H. unfold _download_file in H.
  destruct (bind_inv _ _ _ _ _ H) as (go & s2 & _ & H2). clear H.
  destruct (bind_inv _ _ _ _ _ H2) as (u & s3 & _ & H4). clear H2.
  destruct (bind_inv _ _ _ _ _ H4) as (v & s4 & H5 & H6). clear H4.
  destruct v; unfold ret in H6; injection H6 as Hp <-; [|discriminate].
  subst p. split; [reflexivity|].
  destruct (validate_md5sum_result E file _ s3 true s4 Hhex H5)
    as (Hex & t & Ht & Hb & Hfs & _).
  split.
  - destruct Hfs as [-> | ->]; [exact Hex | apply lookup_cons_some, Hex].
  - exists t. split; [exact Ht|]. symmetry in Hb. apply String.eqb_eq, Hb.
Qed.

Lemma validate_md5sum_frame (E : Env) (file : DataFile) (p : string) (s : St)
    (r : res bool) (s1 : St) :
  _validate_md5sum E file p s = (r, s1) ->
  count_net (st_trace s1) = count_net (st_trace s)
  /\ forall k, k <> norm_key (md5sum_path_of p) -> fs_lookup (st_fs s1) k = fs_lookup (st_fs s) k.
Proof.
  intros H.
  unfold _validate_md5sum, read_text, read_file, bind, is_file, write_file, ret, raise in H.
  simpl in H.
  destruct (fs_lookup (st_fs s) (norm_key p)) as [cp|] eqn:Hp; simpl in H;
    [|injection H as _ <-; auto].
  destruct (fs_lookup (st_fs s) (norm_key (md5sum_path_of p))) as [[t| |]|] eqn:Hm;
    simpl in H; try rewrite Hm in H; simpl in H.
  - injection H as _ <-. auto.
  - injection H as _ <-. auto.
  - injection H as _ <-. auto.
  - rewrite Hp in H. simpl in H. injection H as _ <-. simpl. split; [reflexivity|].
    intros k Hk. rewrite (key_eqb_neq _ _ Hk). reflexivity.
Qed.

(** X11: without [force_download], [_download_file] on a save path that
    already exists opens no transfer and changes no file but the
    [.md5sum] memo. *)
Theorem download_file_no_refetch (E : Env) (dir : string) (file : DataFile) (s : St)
    (r : res (option string)) (s1 : St) :
  fs_lookup (st_fs s) (norm_key (save_path_of dir file)) <> None ->
  _download_file E dir file false s = (r, s1) ->
  count_net (st_trace s1) = count_net (st_trace s)
  /\ forall k, k <> norm_key (md5sum_path_of (save_path_of dir file)) ->
       fs_lookup (st_fs s1) k = fs_lookup (st_fs s) k.
Proof.
  intros Hex H.
  unfold _download_file in H. unfold bind at 1 in H. unfold bind at 1, is_file, ret in H.
  simpl in H.
  destruct (fs_lookup (st_fs s) (norm_key (save_path_of dir file))) as [c|];
    [|congruence]. simpl in H.
  unfold bind at 1, ret in H. unfold bind in H.
  destruct (_validate_md5sum E file (save_path_of dir file) s) as [v s2] eqn:Hv.
  apply validate_md5sum_frame in Hv.
  destruct v as [[|]|e]; unfold ret in H; injection H as _ <-; exact Hv.
Qed.


Lemma sample_md5hex_hex : forall c, all_hex (md5hex sample_env c) = true.
Proof.
  intros [t| |]; simpl; unfold sample_md5hex; [|reflexivity|reflexivity].
  destruct (String.eqb t ""); [reflexivity|]. destruct (String.eqb t "hello"); reflexivity.
Qed.


Lemma validate_md5sum_stable_witness :
  let s := mkSt [(norm_key "/dl/a.txt", Blob "hello")] [] in
  let s1 := snd (_validate_md5sum sample_env hello_file "/dl/a.txt" s) in
  fs_lookup (st_fs s1) (norm_key "/dl/a.txt") = fs_lookup (st_fs s) (norm_key "/dl/a.txt")
  /\ _validate_md5sum sample_env hello_file "/dl/a.txt" s1
     = (Ok true, mkSt (st_fs s1) (ERead (norm_key (md5sum_path_of "/dl/a.txt"))
                               :: EOpen (norm_key (md5sum_path_of "/dl/a.txt")) :: st_trace s1)).
Proof.
  intros s s1.
  apply (validate_md5sum_stable sample_env hello_file "/dl/a.txt" s true s1);
    [exact sample_md5hex_hex | vm_compute; reflexivity].
Defined.

Lemma download_file_some_witness :
  let s1 := snd (_download_file sample_env "/dl" hello_file false (mkSt [] [])) in
  let p := save_path_of "/dl" hello_file in
  p = save_path_of "/dl" hello_file
  /\ fs_lookup (st_fs s1) (norm_key p) <> None
  /\ exists t, fs_lookup (st_fs s1) (norm_key (md5sum_path_of p)) = Some (Blob t)
       /\ strip_ws t = md5sum hello_file.
Proof.
  intros s1 p.
  apply (download_file_some sample_env "/dl" hello_file false (mkSt [] []) p s1);
    [exact sample_md5hex_hex | vm_compute; reflexivity].
Defined.

Lemma download_file_no_refetch_witness :
  let s := mkSt [(norm_key (save_path_of "/dl" hello_file), Blob "hel")] [] in
  let rs1 := _download_file sample_env "/dl" hello_file false s in
  count_net (st_trace (snd rs1)) = count_net (st_trace s)
  /\ forall k, k <> norm_key (md5sum_path_of (save_path_of "/dl" hello_file)) ->
       fs_lookup (st_fs (snd rs1)) k = fs_lookup (st_fs s) k.
Proof.
  intros s rs1.
  apply (download_file_no_refetch sample_env "/dl" hello_file s (fst rs1) (snd rs1));
    [vm_compute; discriminate | apply surjective_pairing].
Defined.

Lemma dict_find_set {V} (d : list (string * V)) (k k' : string) (v : V) :
  dict_find (dict_set d k v) k' = if String.eqb k' k then Some v else dict_find d k'.
Proof.
  induction d as [|[k0 v0] d IH]; simpl.
  - reflexivity.
  - destruct (String.eqb k k0) eqn:E1; simpl.
    + apply String.eqb_eq in E1. subst k0. destruct (String.eqb k' k); reflexivity.
    + rewrite IH. destruct (String.eqb k' k0) eqn:E2; [|reflexivity].
      apply String.eqb_eq in E2. subst k0.
      destruct (String.eqb k' k) eqn:E3; [|reflexivity].
      apply String.eqb_eq in E3. subst k. rewrite String.eqb_refl in E1. discriminate.
Qed.

Lemma nested_find_set (d : list (string * list (string * string))) (dn n p dn' n' : string) :
  nested_find (set_nested d dn n p) dn' n'
  = if String.eqb dn' dn && String.eqb n' n then Some p else nested_find d dn' n'.
Proof.
  unfold nested_find, set_nested. rewrite dict_find_set.
  destruct (String.eqb dn' dn) eqn:E1; simpl; [|reflexivity].
  apply String.eqb_eq in E1. subst dn'.
  rewrite dict_find_set.
  destruct (String.eqb n' n); [reflexivity|].
  destruct (dict_find d dn); reflexivity.
Qed.

Lemma gather_ok (rs : list (res (string * string * string)))
    (acc out : list (string * list (string * string))) :
  gather rs acc = Ok out ->
  (forall dn n p, In (Ok (dn, n, p)) rs -> nested_find out dn n <> None)
  /\ (forall dn n, nested_find acc dn n <> None -> nested_find out dn n <> None)
  /\ (forall dn n p, nested_find out dn n = Some p ->
        In (Ok (dn, n, p)) rs \/ nested_find acc dn n = Some p).
Proof.
  revert acc; induction rs as [|[[[dn n] p]|e] rs IH]; intros acc H; simpl in H.
  - injection H as <-. simpl. split; [tauto|]. split; [tauto|]. auto.
  - destruct (IH _ H) as (H1 & H2 & H3). split; [|split].
    + intros dn' n' p' [Heq | Hi]; [|exact (H1 _ _ _ Hi)].
      injection Heq as -> -> ->. apply H2. rewrite nested_find_set, !String.eqb_refl.
      discriminate.
    + intros dn' n' Hn. apply H2. rewrite nested_find_set.
      destruct (String.eqb dn' dn && String.eqb n' n); [discriminate | exact Hn].
    + intros dn' n' p' Hf. destruct (H3 _ _ _ Hf) as [Hi | Ha]; [left; right; exact Hi|].
      rewrite nested_find_set in Ha.
      destruct (String.eqb dn' dn) eqn:E1, (String.eqb n' n) eqn:E2; simpl in Ha; auto.
      apply String.eqb_eq in E1, E2. subst. injection Ha as ->. left; left; reflexivity.
  - discriminate.
Qed.

Lemma run_futures_sound {A B} (w : A -> M B) (items : list A) (sched : list nat) (s : St)
    (rs : list (res B)) (s1 : St) :
  run_futures w items sched s = (rs, s1) ->
  forall r, In r rs -> exists it si si', In it items /\ w it si = (r, si').
Proof.
  revert s rs s1; induction sched as [|i sched IH]; intros s rs s1 H r Hr; simpl in H.
  - injection H as <- _. destruct Hr.
  - destruct (nth_error items i) as [it|] eqn:Hi; [|exact (IH _ _ _ H r Hr)].
    destruct (w it s) as [r0 s2] eqn:Hw.
    destruct (run_futures w items sched s2) as [rs0 s3] eqn:Hrf.
    injection H as <- _. destruct Hr as [<- | Hr].
    + exists it, s, s2. split; [exact (nth_error_In _ _ Hi) | exact Hw].
    + exact (IH _ _ _ Hrf r Hr).
Qed.

Lemma run_futures_complete {A B} (w : A -> M B) (items : list A) (sched : list nat) (s : St)
    (rs : list (res B)) (s1 : St) :
  run_futures w items sched s = (rs, s1) ->
  forall i it, nth_error items i = Some it -> In i sched ->
  exists r si si', In r rs /\ w it si = (r, si').
Proof.
  revert s rs s1; induction sched as [|j sched IH]; intros s rs s1 H i it Hit Hin; simpl in H.
  - destruct Hin.
  - destruct Hin as [-> | Hin].
    + rewrite Hit in H. destruct (w it s) as [r0 s2] eqn:Hw.
      destruct (run_futures w items sched s2) as [rs0 s3].
      injection H as <- _. exists r0, s, s2. split; [left; reflexivity | exact Hw].
    + destruct (nth_error items j) as [it'|].
      * destruct (w it' s) as [r0 s2].
        destruct (run_futures w items sched s2) as [rs0 s3] eqn:Hrf.
        injection H as <- _.
        destruct (IH _ _ _ Hrf i it Hit Hin) as (r & si & si' & Hr & Hw).
        exists r, si, si'. split; [right; exact Hr | exact Hw].
      * exact (IH _ _ _ H i it Hit Hin).
Qed.

Lemma nat_mem_In (x : nat) (l : list nat) : Atlas.nat_mem x l = true <-> In x l.
Proof.
  induction l as [|y l IH]; simpl; [split; [discriminate | tauto]|].
  rewrite orb_true_iff, IH, Nat.eqb_eq. split; intros [H | H]; auto.
Qed.

Lemma nodupb_NoDup (l : list nat) : Atlas.nodupb l = true -> NoDup l.
Proof.
  induction l as [|x l IH]; simpl; intros H; [constructor|].
  apply andb_prop in H as [H1 H2]. constructor; [|exact (IH H2)].
  intros Hi. apply nat_mem_In in Hi. rewrite Hi in H1. discriminate.
Qed.

Lemma schedule_complete (sched : list nat) (n : nat) :
  Atlas.is_schedule sched n = true -> forall i, i < n -> In i sched.
Proof.
  unfold Atlas.is_schedule. intros H i Hi.
  apply andb_prop in H as [H Hnd]. apply andb_prop in H as [Hl Hlt].
  apply Nat.eqb_eq in Hl. rewrite forallb_forall in Hlt.
  assert (Hincl : incl sched (seq 0 n)).
  { intros j Hj. apply in_seq. specialize (Hlt j Hj). apply Nat.ltb_lt in Hlt. lia. }
  apply (NoDup_length_incl (nodupb_NoDup _ Hnd)) in Hincl;
    [| rewrite length_seq; lia].
  apply Hincl, in_seq. lia.
Qed.

Lemma in_submissions (datasets : list (string * list (string * DataFile)))
    (dn n : string) (f : DataFile) :
  In (dn, n, f) (submissions datasets)
  <-> exists files, In (dn, files) datasets /\ In (n, f) files.
Proof.
  unfold submissions. rewrite in_concat. split.
  - intros (l & Hl & Hin). apply in_map_iff in Hl as ([dn0 files] & <- & Hd).
    apply in_map_iff in Hin as ([n0 f0] & Heq & Hnf). simpl in Heq.
    injection Heq as -> -> ->. eauto.
  - intros (files & Hd & Hnf). exists (map (fun nf => (dn, fst nf, snd nf)) files).
    split; [apply in_map_iff; exists (dn, files); auto|].
    apply in_map_iff. exists (n, f). auto.
Qed.

Lemma visium_worker_ok (E : Env) (dir : string) (fd fe : bool) (mr : nat)
    (it : string * string * DataFile) (si : St) (x : string * string * string) (si' : St) :
  visium_worker E dir fd fe mr it si = (Ok x, si') ->
  exists p, x = (fst (fst it), snd (fst it), p)
    /\ _download_and_extract_file E dir (snd it) fd fe mr si = (Ok p, si').
Proof.
  destruct it as [[dn n] f]. unfold visium_worker. intros H.
  destruct (bind_inv _ _ _ _ _ H) as (p & s2 & H1 & H2).
  unfold ret in H2. injection H2 as <- <-. eauto.
Qed.

(** X15: [download_visium_datasets], when every submitted future
    completes, on success maps every (dataset, name) of the input to a
    path, and every path of the result is one that
    [_download_and_extract_file] returned for that file. *)
Theorem download_visium_datasets_complete (E : Env) (dir : string) (fd fe : bool) (mr : nat)
    (sched : list nat) (datasets : list (string * list (string * DataFile))) (s : St)
    (out : list (string * list (string * string))) (s1 : St) :
  Atlas.is_schedule sched (length (submissions datasets)) = true ->
  download_visium_datasets E dir fd fe mr sched datasets s = (Ok out, s1) ->
  (forall dn files n f, In (dn, files) datasets -> In (n, f) files ->
     nested_find out dn n <> None)
  /\ (forall dn n p, nested_find out dn n = Some p ->
        exists files f si si', In (dn, files) datasets /\ In (n, f) files
          /\ _download_and_extract_file E dir f fd fe mr si = (Ok p, si')).
Proof.
  intros Hs H. unfold download_visium_datasets in H.
  destruct (run_futures (visium_worker E dir fd fe mr) (submissions datasets) sched s)
    as [rs s2] eqn:Hrf.
  injection H as Hg _.
  destruct (gather_ok rs [] out Hg) as (G1 & _ & G3).
  split.
  - intros dn files n f Hd Hnf.
    assert (Hin : In (dn, n, f) (submissions datasets))
      by (apply in_submissions; eauto).
    destruct (In_nth_error _ _ Hin) as (i & Hi).
    destruct (run_futures_complete _ _ _ _ _ _ Hrf i _ Hi
                (schedule_complete _ _ Hs i (proj1 (nth_error_Some _ _)
                                               ltac:(rewrite Hi; discriminate))))
      as (r & si & si' & Hr & Hw).
    destruct r as [x|e].
    + destruct (visium_worker_ok E dir fd fe mr _ si x si' Hw) as (p & -> & _).
      exact (G1 _ _ _ Hr).
    + exfalso. clear -Hg Hr. revert Hg. generalize (@nil (string * list (string * string))).
      induction rs as [|[[[a b] c]|e'] rs IH]; intros acc Hg; simpl in Hg;
        [destruct Hr | | discriminate].
      destruct Hr as [Hr | Hr]; [discriminate | exact (IH Hr _ Hg)].
  - intros dn n p Hf. destruct (G3 _ _ _ Hf) as [Hr | Hr]; [|discriminate].
    destruct (run_futures_sound _ _ _ _ _ _ Hrf _ Hr) as (it & si & si' & Hit & Hw).
    destruct (visium_worker_ok E dir fd fe mr it si _ si' Hw) as (p' & Heq & Hdl).
    destruct it as [[dn0 n0] f0]. simpl in Heq, Hdl. injection Heq as -> -> ->.
    apply in_submissions in Hit as (files & Hd & Hnf).
    exists files, f0, si, si'. auto.
Qed.


Lemma download_visium_datasets_complete_witness :
  let out := [("ds", [("a", "/dl/5d41402abc4b2a76b9719d911017c592.txt")])] in
  let s1 := snd (download_visium_datasets sample_env "/dl" false false 1 [0]
                   sample_datasets (mkSt [] [])) in
  (forall dn files n f, In (dn, files) sample_datasets -> In (n, f) files ->
     nested_find out dn n <> None)
  /\ (forall dn n p, nested_find out dn n = Some p ->
        exists files f si si', In (dn, files) sample_datasets /\ In (n, f) files
          /\ _download_and_extract_file sample_env "/dl" f false false 1 si = (Ok p, si')).
Proof.
  intros out s1.
  apply (download_visium_datasets_complete sample_env "/dl" false false 1 [0]
           sample_datasets (mkSt [] []) out s1);
    [reflexivity | vm_compute; reflexivity].
Defined.

End VisiumExtras.
